(** * agents-cloudflare: the RAG router of [src/index.ts]

    A shallow embedding of the worker's front door ([fetch]), of the
    [RAGAgent] class ([shouldUseRAG], [processWithRAG], [processGeneral])
    and of the [MyAgent] durable object ([/history], [/save], [/stats]),
    followed by the properties the specification states about them.

    Conventions of the embedding:
    - a JavaScript string is the list of its UTF-16 code units, so that
      [length], [substring] and [includes] count what the engine counts;
    - a JavaScript number that is read from JSON is the rational it denotes;
    - [async] code is a state-and-exception monad over a world holding the
      durable storage and the log of the calls made to the outside;
    - the outside (embedding model, vector index, completion endpoint, clock,
      storage failures) is a record of oracles that may answer differently
      every time, since they are given the log so far. *)

From Stdlib Require Import String Ascii NArith ZArith QArith Qround Bool Lia Arith List.
Import ListNotations.
Open Scope nat_scope.

Set Implicit Arguments.

(** ** JavaScript strings *)

Module JS.

Definition jsstring := list N.

Fixpoint bytes_of (s : string) : list N :=
  match s with
  | EmptyString => []
  | String c r => N_of_ascii c :: bytes_of r
  end.

(** The literals of this file are written in UTF-8; [utf8_units] turns their
    bytes into code units (one to three bytes per unit, which covers every
    literal of the source). *)
Fixpoint utf8_units (l : list N) : jsstring :=
  match l with
  | [] => []
  | b0 :: r0 =>
      if (b0 <? 128)%N then b0 :: utf8_units r0
      else match r0 with
           | [] => [65533%N]
           | b1 :: r1 =>
               if (b0 <? 224)%N
               then ((b0 - 192) * 64 + (b1 - 128))%N :: utf8_units r1
               else match r1 with
                    | [] => [65533%N]
                    | b2 :: r2 =>
                        ((b0 - 224) * 4096 + (b1 - 128) * 64 + (b2 - 128))%N
                          :: utf8_units r2
                    end
           end
  end.

Definition lit (s : string) : jsstring := utf8_units (bytes_of s).

Fixpoint str_eqb (a b : jsstring) : bool :=
  match a, b with
  | [], [] => true
  | x :: a', y :: b' => (x =? y)%N && str_eqb a' b'
  | _, _ => false
  end.

(** [s.startsWith(p)] *)
Fixpoint startsWith (s p : jsstring) : bool :=
  match p with
  | [] => true
  | y :: p' =>
      match s with
      | [] => false
      | x :: s' => (x =? y)%N && startsWith s' p'
      end
  end.

(** [s.includes(p)]: [p] starts at some position of [s]. *)
Fixpoint includes (s p : jsstring) : bool :=
  startsWith s p ||
  match s with
  | [] => false
  | _ :: s' => includes s' p
  end.

(** [s.substring(0, n)] *)
Definition substring0 (n : nat) (s : jsstring) : jsstring := firstn n s.

(** [parts.join(sep)] on strings *)
Fixpoint join (sep : jsstring) (parts : list jsstring) : jsstring :=
  match parts with
  | [] => []
  | [p] => p
  | p :: rest => p ++ sep ++ join sep rest
  end.

(** [xs.some(p)] *)
Definition some {A} (p : A -> bool) (xs : list A) : bool := existsb p xs.

(** [xs.slice(-n)]: the last [n] elements, all of them when there are fewer;
    [-0] is [0], which keeps the whole array. *)
Definition slice_last {A} (n : nat) (xs : list A) : list A :=
  match n with
  | O => xs
  | S _ => skipn (length xs - n) xs
  end.

End JS.
Import JS.


(** ** Values exchanged with the platform *)

(** What a [catch] clause receives: an [Error] with its message, or any
    other thrown value ([error instanceof Error] tells them apart). *)
Inductive Thrown :=
| JsError (message : jsstring)
| NotAnError.

(** The settlement of an awaited promise. *)
Inductive Outcome (A : Type) :=
| Returns (a : A)
| Throws (e : Thrown).
Arguments Returns {A} a.
Arguments Throws {A} e.

(** A value of a vector's metadata ([VectorizeVectorMetadata]): a string, a
    number, a boolean, an array of strings or a nested record. *)
#[warnings="-register-all"]
Inductive MetaValue :=
| MStr (s : jsstring)
| MNum (q : Q)
| MBool (b : bool)
| MStrs (l : list jsstring)
| MRecord (fields : list (jsstring * MetaValue)).

(** One match of [VECTORIZE.query]; [metadata] may be missing. *)
Record VMatch := {
  m_id : jsstring;
  m_score : Q;
  m_metadata : option (list (jsstring * MetaValue))
}.

(** [EmbeddingResponse] *)
Record EmbeddingResponse := {
  data : option (list (list Q))
}.

(** [AzureOpenAIResponse], with every level the code reads through [?.]
    allowed to be missing. *)
Record ChoiceMessage := { cm_content : option jsstring }.
Record Choice := { ch_message : option ChoiceMessage }.
Record AzureOpenAIResponse := { choices : option (list Choice) }.

(** The body of the POST sent to the completion endpoint. *)
Record ChatMessage := { role : jsstring; content : jsstring }.
Record CompletionRequest := {
  url : jsstring;
  api_key : jsstring;
  messages : list ChatMessage;
  temperature : Q;
  max_tokens : Z;
  top_p : Q
}.

(** The [Response] of the global [fetch]: [text()] and [json()] are promises
    of their own. A body that parses to [null] makes the first property
    access throw inside the same [try], so it is a [Throws] of [http_json]. *)
Record HttpResponse := {
  ok : bool;
  http_status : Z;
  http_text : Outcome jsstring;
  http_json : Outcome AzureOpenAIResponse
}.

(** One entry of [sources] in a RAG result. *)
Record Source := {
  src_id : jsstring;
  src_score : Q;
  src_title : option MetaValue;
  src_content : option jsstring
}.

(** What [processWithRAG] and [processGeneral] return. *)
Record PipelineResult := {
  res_question : jsstring;
  res_answer : jsstring;
  res_usedRAG : bool;
  res_sources : list Source;
  res_context_used : bool
}.

(** One record of the stored history; a field the saved body lacked is
    [None] ([undefined]). *)
Record InteractionRecord := {
  rec_question : option jsstring;
  rec_answer : option jsstring;
  rec_usedRAG : option bool;
  rec_timestamp : option jsstring
}.

(** A parsed JSON request body, seen through the fields the handlers
    destructure; [None] is a field that is absent. *)
Record JsonBody := {
  b_question : option jsstring;
  b_topK : option Q;
  b_forceRAG : option bool;
  b_answer : option jsstring;
  b_usedRAG : option bool;
  b_timestamp : option jsstring
}.

(** An incoming [Request]: the path of its URL, its method, and what
    [request.json()] settles to (destructuring a [null] body throws in the
    same [try], so that case is a [Throws] as well). *)
Record Request := {
  pathname : jsstring;
  method : jsstring;
  req_json : Outcome JsonBody
}.

Record Stats := {
  totalInteractions : nat;
  ragUsage : nat;
  generalUsage : nat;
  ragPercentage : Z
}.

(** The objects given to [Response.json]. *)
Inductive Payload :=
| PError (error : jsstring) (details : option jsstring)
| PChat (result : PipelineResult) (agentDecision : jsstring)
        (timestamp : jsstring)
| PHistory (history : list InteractionRecord)
| PSaved (historyLength : nat)
| PStats (s : Stats)
| POther (serialised : jsstring).

Inductive Body :=
| BNull
| BText (s : jsstring)
| BJson (p : Payload).

(** An outgoing [Response]: status, the headers passed in its init, body. *)
Record Response := {
  status : Z;
  headers : list (jsstring * jsstring);
  body : Body
}.

(** ** The world: durable storage and the log of outside calls *)

Inductive Event :=
| EvEmbed (model text : jsstring) (o : Outcome EmbeddingResponse)
| EvQuery (vector : list Q) (topK : Q) (o : Outcome (list VMatch))
| EvFetch (req : CompletionRequest) (o : Outcome HttpResponse)
| EvConsoleError (label : jsstring) (e : Thrown)
| EvDate (iso : jsstring)
| EvStorageGet (failure : option Thrown)
| EvStoragePut (failure : option Thrown)
| EvStubFetch (path : jsstring) (failure : option Thrown).

(** [chat_history] is the value under the storage key of that name
    ([None]: never written); [log] has the latest event first. *)
Record World := {
  chat_history : option (list InteractionRecord);
  log : list Event
}.

(** The engine's own functions, which the program only calls:
    [String.prototype.toLowerCase], the conversion of a number to a string,
    and [Math.round((a / b) * 100)] in double arithmetic. *)
Class Runtime := {
  toLowerCase : jsstring -> jsstring;
  Number_toString : Q -> jsstring;
  round_percent : nat -> nat -> Z
}.

(** The bindings of [Env] and the rest of the outside. Every oracle is given
    the log so far, so the same request may be answered differently. *)
Class Services := {
  AZURE_OPENAI_ENDPOINT : jsstring;
  AZURE_OPENAI_API_VERSION : jsstring;
  AZURE_OPENAI_DEPLOYMENT_NAME : jsstring;
  AZURE_OPENAI_API_KEY : option jsstring;
  AI_run : list Event -> jsstring -> jsstring -> Outcome EmbeddingResponse;
  VECTORIZE_query : list Event -> list Q -> Q -> Outcome (list VMatch);
  global_fetch : list Event -> CompletionRequest -> Outcome HttpResponse;
  Date_toISOString : list Event -> jsstring;
  storage_get_failure : list Event -> option Thrown;
  storage_put_failure : list Event -> option Thrown;
  stub_fetch_failure : list Event -> option Thrown
}.

(** ** The monad of [async] code *)

Definition M (A : Type) := World -> Outcome A * World.

Definition ret {A} (a : A) : M A := fun w => (Returns a, w).

Definition bind {A B} (m : M A) (k : A -> M B) : M B :=
  fun w =>
    match m w with
    | (Returns a, w') => k a w'
    | (Throws e, w') => (Throws e, w')
    end.

Definition throw {A} (e : Thrown) : M A := fun w => (Throws e, w).

(** [try { m } catch (error) { h error }] *)
Definition try_catch {A} (m : M A) (h : Thrown -> M A) : M A :=
  fun w =>
    match m w with
    | (Returns a, w') => (Returns a, w')
    | (Throws e, w') => h e w'
    end.

(** [await p] for a promise whose settlement is known. *)
Definition await {A} (o : Outcome A) : M A := fun w => (o, w).

Declare Scope js_scope.
Delimit Scope js_scope with js.
Notation "x <- m ;; k" := (bind m (fun x => k))
  (at level 61, m at next level, right associativity) : js_scope.
Notation "m ;; k" := (bind m (fun _ => k))
  (at level 61, right associativity) : js_scope.
Open Scope js_scope.

Definition record (e : Event) (w : World) : World :=
  {| chat_history := chat_history w; log := e :: log w |}.

(** [a || d] for an optional string: [d] when [a] is undefined or empty. *)
Definition or_else (a : option jsstring) (d : jsstring) : jsstring :=
  match a with
  | Some (c :: s) => c :: s
  | _ => d
  end.

(** [error instanceof Error ? error.message : "Unknown error"] *)
Definition message_of (e : Thrown) : jsstring :=
  match e with
  | JsError m => m
  | NotAnError => lit "Unknown error"
  end.

Definition nl : jsstring := [10%N].

(** ** Calls to the outside *)

Section Outside.
Context {sv : Services}.

(** [await this.env.AI.run(model, { text: [text] })] *)
Definition env_AI_run (model text : jsstring) : M EmbeddingResponse :=
  fun w =>
    let o := AI_run (log w) model text in
    (o, record (EvEmbed model text o) w).

(** [await this.env.VECTORIZE.query(vector, { topK, returnMetadata: true })] *)
Definition env_VECTORIZE_query (vector : list Q) (topK : Q)
  : M (list VMatch) :=
  fun w =>
    let o := VECTORIZE_query (log w) vector topK in
    (o, record (EvQuery vector topK o) w).

(** [await fetch(url, { method: "POST", headers, body })] *)
Definition fetch_completion (req : CompletionRequest) : M HttpResponse :=
  fun w =>
    let o := global_fetch (log w) req in
    (o, record (EvFetch req o) w).

(** [console.error(label, error)] *)
Definition console_error (label : jsstring) (e : Thrown) : M unit :=
  fun w => (Returns tt, record (EvConsoleError label e) w).

(** [new Date().toISOString()] *)
Definition new_Date_toISOString : M jsstring :=
  fun w =>
    let iso := Date_toISOString (log w) in
    (Returns iso, record (EvDate iso) w).

(** [await this.storage.get("chat_history")] *)
Definition storage_get : M (option (list InteractionRecord)) :=
  fun w =>
    let f := storage_get_failure (log w) in
    let w' := record (EvStorageGet f) w in
    match f with
    | Some e => (Throws e, w')
    | None => (Returns (chat_history w), w')
    end.

(** [await this.storage.put("chat_history", history)] *)
Definition storage_put (history : list InteractionRecord) : M unit :=
  fun w =>
    let f := storage_put_failure (log w) in
    match f with
    | Some e => (Throws e, record (EvStoragePut f) w)
    | None =>
        (Returns tt,
         {| chat_history := Some history; log := EvStoragePut f :: log w |})
    end.

(** The URL of the chat-completions deployment. *)
Definition completions_url : jsstring :=
  AZURE_OPENAI_ENDPOINT ++ lit "/openai/deployments/"
    ++ AZURE_OPENAI_DEPLOYMENT_NAME
    ++ lit "/chat/completions?api-version=" ++ AZURE_OPENAI_API_VERSION.

(** The POST of a system message and a user message, as all three callers
    build it: [api-key] is the configured key or the empty string,
    [temperature: 0.7], [top_p: 0.9]. *)
Definition completion_request (system user : jsstring) (max : Z)
  : CompletionRequest :=
  {| url := completions_url;
     api_key := or_else AZURE_OPENAI_API_KEY [];
     messages := [ {| role := lit "system"; content := system |};
                   {| role := lit "user"; content := user |} ];
     temperature := 7 # 10;
     max_tokens := max;
     top_p := 9 # 10 |}.

End Outside.

(** ** class RAGAgent *)

Definition ragKeywords : list jsstring :=
  map lit
    [ "document"; "archivo"; "información específica"; "según el documento";
      "en la base de conocimientos"; "qué dice sobre"; "buscar información";
      "consultar"; "referencias"; "fuentes"; "datos almacenados" ]%string.

Definition generalKeywords : list jsstring :=
  map lit
    [ "hola"; "cómo estás"; "ayuda general"; "explicar conceptos";
      "definir"; "cómo funciona"; "qué es"; "ayúdame a entender" ]%string.

(** [decisionResponse.choices?.[0]?.message?.content] *)
Definition first_content (r : AzureOpenAIResponse) : option jsstring :=
  match choices r with
  | Some (c :: _) =>
      match ch_message c with
      | Some m => cm_content m
      | None => None
      end
  | _ => None
  end.

(** Truthiness of a metadata value, as [filter(content => content)] tests
    it. *)
Definition truthy (v : MetaValue) : bool :=
  match v with
  | MStr s => match s with [] => false | _ => true end
  | MNum q => negb (Qeq_bool q 0)
  | MBool b => b
  | MStrs _ => true
  | MRecord _ => true
  end.

Definition truthy_opt (v : option MetaValue) : bool :=
  match v with
  | Some v => truthy v
  | None => false
  end.

Fixpoint lookup (key : jsstring) (fields : list (jsstring * MetaValue))
  : option MetaValue :=
  match fields with
  | [] => None
  | (k, v) :: rest => if str_eqb k key then Some v else lookup key rest
  end.

(** [match.metadata?.key] *)
Definition metadata_field (key : jsstring) (m : VMatch) : option MetaValue :=
  match m_metadata m with
  | Some fields => lookup key fields
  | None => None
  end.

(** The similarity threshold [0.7]. A score is a double; no double lies
    strictly between the double written [0.7] and the rational 7/10, so
    comparing a score with either gives the same answer. *)
Definition threshold : Q := 7 # 10.

Definition above_threshold (m : VMatch) : bool :=
  negb (Qle_bool (m_score m) threshold).

Section Agent.
Context {rt : Runtime} {sv : Services}.

(** The string an element becomes inside [Array.prototype.join]; an
    undefined element gives the empty string. *)
Definition to_string (v : option MetaValue) : jsstring :=
  match v with
  | None => []
  | Some (MStr s) => s
  | Some (MNum q) => Number_toString q
  | Some (MBool true) => lit "true"
  | Some (MBool false) => lit "false"
  | Some (MStrs l) => join (lit ",") l
  | Some (MRecord _) => lit "[object Object]"
  end.

(** [`Azure OpenAI API error: ${response.status} - ${await response.text()}`]
    thrown when [response.ok] is false. *)
Definition check_ok (response : HttpResponse) : M unit :=
  if negb (ok response) then
    text <- await (http_text response) ;;
    throw (JsError (lit "Azure OpenAI API error: "
                      ++ Number_toString (inject_Z (http_status response))
                      ++ lit " - " ++ text))
  else ret tt.

Definition decision_request (question : jsstring) : CompletionRequest :=
  completion_request
    (lit "Decide si la pregunta requiere RAG (documentos) o GENERAL (conocimiento común). Responde solo 'RAG' o 'GENERAL'.")
    (lit "Pregunta: " ++ [34%N] ++ question ++ [34%N])
    10.

(** [shouldUseRAG]; [decisionPrompt] is built by the source but never sent,
    so it has no counterpart here. *)
Definition shouldUseRAG (question : jsstring) : M bool :=
  let questionLower := toLowerCase question in
  let hasRagKeywords :=
    some (fun keyword => includes questionLower (toLowerCase keyword))
         ragKeywords in
  let hasGeneralKeywords :=
    some (fun keyword => includes questionLower (toLowerCase keyword))
         generalKeywords in
  if hasRagKeywords then ret true
  else if hasGeneralKeywords then ret false
  else
    try_catch
      (response <- fetch_completion (decision_request question) ;;
       check_ok response ;;
       decisionResponse <- await (http_json response) ;;
       let content := or_else (first_content decisionResponse) [] in
       ret (includes (toLowerCase content) (lit "rag")))
      (fun error =>
         console_error (lit "Error in shouldUseRAG:") error ;;
         ret (20 <? length questionLower)).

(** Step 3 of [processWithRAG]: the context blob. *)
Definition context_of (matches : list VMatch) : jsstring :=
  join (nl ++ nl)
    (map to_string
       (filter truthy_opt
          (map (metadata_field (lit "content"))
             (filter above_threshold matches)))).

(** One element of [sources]. *)
Definition source_of (m : VMatch) : Source :=
  {| src_id := m_id m;
     src_score := m_score m;
     src_title := metadata_field (lit "title") m;
     src_content :=
       match metadata_field (lit "content") m with
       | Some (MStr s) => Some (substring0 200 s ++ lit "...")
       | _ => None
       end |}.

Definition no_information : jsstring :=
  lit "No pude encontrar información relevante en la base de conocimientos.".

Definition no_answer : jsstring := lit "No pude generar una respuesta.".

Definition rag_prompt (context question : jsstring) : jsstring :=
  lit "Context information:" ++ nl ++ context ++ nl ++ nl
    ++ lit "Question: " ++ question ++ nl ++ nl
    ++ lit "Please provide a helpful and accurate answer based on the context information above. If the context doesn't contain enough information to answer the question, please say so."
    ++ nl ++ nl ++ lit "Answer:".

Definition rag_request (context question : jsstring) : CompletionRequest :=
  completion_request
    (lit "Eres un asistente útil y creativo. Responde en español de forma clara y detallada basándote en el contexto proporcionado.")
    (rag_prompt context question)
    300.

Definition embedding_model : jsstring := lit "@cf/baai/bge-base-en-v1.5".

Definition processWithRAG (question : jsstring) (topK : Q)
  : M PipelineResult :=
  try_catch
    (queryVector <- env_AI_run embedding_model question ;;
     match data queryVector with
     | None | Some [] =>
         throw (JsError (lit "Failed to generate query embedding"))
     | Some (vector :: _) =>
         matches <- env_VECTORIZE_query vector topK ;;
         let context := context_of matches in
         answer <-
           (if 0 <? length context then
              response <- fetch_completion (rag_request context question) ;;
              check_ok response ;;
              chatResponse <- await (http_json response) ;;
              ret (or_else (first_content chatResponse) no_answer)
            else ret no_information) ;;
         ret {| res_question := question;
                res_answer := answer;
                res_usedRAG := true;
                res_sources := map source_of matches;
                res_context_used := 0 <? length context |}
     end)
    (fun error =>
       console_error (lit "Error in processWithRAG:") error ;;
       throw (JsError (lit "RAG processing failed: " ++ message_of error))).

Definition general_request (question : jsstring) : CompletionRequest :=
  completion_request
    (lit "Eres un asistente útil y creativo. Responde en español de forma clara y detallada.")
    question
    300.

Definition processGeneral (question : jsstring) : M PipelineResult :=
  try_catch
    (response <- fetch_completion (general_request question) ;;
     check_ok response ;;
     chatResponse <- await (http_json response) ;;
     let answer := or_else (first_content chatResponse) no_answer in
     ret {| res_question := question;
            res_answer := answer;
            res_usedRAG := false;
            res_sources := [];
            res_context_used := false |})
    (fun error =>
       console_error (lit "Error in processGeneral:") error ;;
       throw (JsError (lit "General processing failed: "
                         ++ message_of error))).

End Agent.

(** ** Responses *)

Definition corsHeaders : list (jsstring * jsstring) :=
  [ (lit "Access-Control-Allow-Origin", lit "*");
    (lit "Access-Control-Allow-Methods",
     lit "GET, POST, PUT, DELETE, OPTIONS");
    (lit "Access-Control-Allow-Headers", lit "Content-Type") ].

(** [Response.json(payload, { status, headers: corsHeaders })] *)
Definition Response_json (st : Z) (p : Payload) : Response :=
  {| status := st; headers := corsHeaders; body := BJson p |}.

(** [new Response(null, { headers: corsHeaders })]: the status defaults
    to 200. *)
Definition preflight_response : Response :=
  {| status := 200; headers := corsHeaders; body := BNull |}.

(** [new Response("", { status: 404 })] *)
Definition favicon_response : Response :=
  {| status := 404; headers := []; body := BText [] |}.

(** ** class MyAgent (the durable object) *)

(** A flag as the two [filter] callbacks of [/stats] read it. *)
Definition flag_truthy (f : option bool) : bool :=
  match f with
  | Some b => b
  | None => false
  end.

(** [history.push(record)] followed by the trim to the last 100. *)
Definition push_trim (history : list InteractionRecord)
    (r : InteractionRecord) : list InteractionRecord :=
  let history := history ++ [r] in
  if 100 <? length history then slice_last 100 history else history.

Section DurableObject.
Context {rt : Runtime} {sv : Services}.

(** The object returned by [/stats]. *)
Definition stats_of (history : list InteractionRecord) : Stats :=
  let ragUsage :=
    length (filter (fun item => flag_truthy (rec_usedRAG item)) history) in
  let generalUsage :=
    length (filter (fun item => negb (flag_truthy (rec_usedRAG item)))
              history) in
  {| totalInteractions := length history;
     ragUsage := ragUsage;
     generalUsage := generalUsage;
     ragPercentage :=
       if 0 <? length history
       then round_percent ragUsage (length history)
       else 0%Z |}.

Definition failure_response (what : jsstring) (error : Thrown) : Response :=
  Response_json 500 (PError what (Some (message_of error))).

Definition MyAgent_fetch (request : Request) : M Response :=
  let path := pathname request in
  if str_eqb (method request) (lit "OPTIONS") then ret preflight_response
  else if str_eqb path (lit "/history") && str_eqb (method request) (lit "GET")
  then
    try_catch
      (stored <- storage_get ;;
       let history := match stored with Some h => h | None => [] end in
       ret (Response_json 200 (PHistory history)))
      (fun error =>
         ret (failure_response (lit "Failed to retrieve history") error))
  else if str_eqb path (lit "/save") && str_eqb (method request) (lit "POST")
  then
    try_catch
      (b <- await (req_json request) ;;
       stored <- storage_get ;;
       let history := match stored with Some h => h | None => [] end in
       let history :=
         push_trim history
           {| rec_question := b_question b;
              rec_answer := b_answer b;
              rec_usedRAG := b_usedRAG b;
              rec_timestamp := b_timestamp b |} in
       storage_put history ;;
       ret (Response_json 200 (PSaved (length history))))
      (fun error =>
         ret (failure_response (lit "Failed to save to history") error))
  else if str_eqb path (lit "/stats") && str_eqb (method request) (lit "GET")
  then
    try_catch
      (stored <- storage_get ;;
       let history := match stored with Some h => h | None => [] end in
       ret (Response_json 200 (PStats (stats_of history))))
      (fun error =>
         ret (failure_response (lit "Failed to get stats") error))
  else ret (Response_json 404 (PError (lit "Not found") None)).

(** [await agentStub.fetch("https://agent.internal" + path, init)]: the call
    may fail before it reaches the object; otherwise the object handles it. *)
Definition agentStub_fetch (request : Request) : M Response :=
  fun w =>
    let f := stub_fetch_failure (log w) in
    let w' := record (EvStubFetch (pathname request) f) w in
    match f with
    | Some e => (Throws e, w')
    | None => MyAgent_fetch request w'
    end.

End DurableObject.

(** ** The front door *)

(** The routes after [/chat] in the worker's [fetch] ([/insert], [/search],
    [/agent/...], [/health] and the discovery document). *)
Class LaterRoutes := {
  later_routes : Request -> M Response
}.

Section FrontDoor.
Context {rt : Runtime} {sv : Services} {lr : LaterRoutes}.

(** The request the chat handler sends to the durable object. *)
Definition save_request (result : PipelineResult) (timestamp : jsstring)
  : Request :=
  {| pathname := lit "/save";
     method := lit "POST";
     req_json :=
       Returns {| b_question := Some (res_question result);
                  b_topK := None;
                  b_forceRAG := None;
                  b_answer := Some (res_answer result);
                  b_usedRAG := Some (res_usedRAG result);
                  b_timestamp := Some timestamp |} |}.

(** The [try] block of the chat handler that records the interaction. *)
Definition save_interaction (result : PipelineResult) : M unit :=
  try_catch
    (timestamp <- new_Date_toISOString ;;
     agentStub_fetch (save_request result timestamp) ;;
     ret tt)
    (fun error =>
       console_error (lit "Failed to save to agent history:") error).

(** The [/chat] route. *)
Definition chat (request : Request) : M Response :=
  try_catch
    (b <- await (req_json request) ;;
     let question := b_question b in
     let topK := match b_topK b with Some k => k | None => 3%Q end in
     let forceRAG := match b_forceRAG b with Some f => f | None => false end in
     match question with
     | None | Some [] =>
         ret (Response_json 400 (PError (lit "Question is required") None))
     | Some question =>
         shouldUse <-
           (if forceRAG then ret true else shouldUseRAG question) ;;
         result <-
           (if shouldUse : bool then processWithRAG question topK
            else processGeneral question) ;;
         save_interaction result ;;
         timestamp <- new_Date_toISOString ;;
         ret (Response_json 200
                (PChat result
                   (if shouldUse then lit "RAG" else lit "GENERAL")
                   timestamp))
     end)
    (fun error =>
       console_error (lit "Chat endpoint error:") error ;;
       ret (Response_json 500
              (PError (lit "Failed to process chat request")
                 (Some (message_of error))))).

Definition fetch (request : Request) : M Response :=
  let path := pathname request in
  if startsWith path (lit "/favicon") then ret favicon_response
  else if str_eqb (method request) (lit "OPTIONS") then ret preflight_response
  else if str_eqb path (lit "/chat") && str_eqb (method request) (lit "POST")
  then chat request
  else later_routes request.

End FrontDoor.

(** ** What the properties speak about *)

(** The settlements of the completion call after which the code reaches its
    [catch]: the request is rejected, the status is not a success, or the
    body cannot be read as JSON. *)
Definition call_failed (o : Outcome HttpResponse) : bool :=
  match o with
  | Throws _ => true
  | Returns r =>
      negb (ok r) ||
      match http_json r with
      | Throws _ => true
      | Returns _ => false
      end
  end.

Definition is_fetch (e : Event) : bool :=
  match e with
  | EvFetch _ _ => true
  | _ => false
  end.

(** A call of the classifier is a completion call limited to 10 tokens (the
    two pipelines ask for 300). *)
Definition is_classifier_call (e : Event) : bool :=
  match e with
  | EvFetch req _ => (max_tokens req =? 10)%Z
  | _ => false
  end.

(** An event that is not a call of the classifier. *)
Definition quiet (e : Event) : bool := negb (is_classifier_call e).

(** [keywords.some(keyword => questionLower.includes(keyword.toLowerCase()))],
    the test [shouldUseRAG] makes on each of its two lists. *)
Definition has_keyword {rt : Runtime} (keywords : list jsstring)
    (question : jsstring) : bool :=
  some (fun keyword => includes (toLowerCase question) (toLowerCase keyword))
       keywords.

(** The stored list as [storage.get(...) || []] reads it. *)
Definition stored_history (w : World) : list InteractionRecord :=
  match chat_history w with
  | Some h => h
  | None => []
  end.

(** The record [/save] builds from a body. *)
Definition record_of (b : JsonBody) : InteractionRecord :=
  {| rec_question := b_question b;
     rec_answer := b_answer b;
     rec_usedRAG := b_usedRAG b;
     rec_timestamp := b_timestamp b |}.

(** Where [processWithRAG] ends when its [try] block throws [e]. *)
Definition rag_failure (e : Thrown) (w : World)
  : Outcome PipelineResult * World :=
  (Throws (JsError (lit "RAG processing failed: " ++ message_of e)),
   record (EvConsoleError (lit "Error in processWithRAG:") e) w).

(** ** A runtime and an outside for the examples *)

Module Sample.

(** Lower-casing of the ASCII and Latin-1 capital letters. *)
Definition lower_unit (c : N) : N :=
  if ((65 <=? c) && (c <=? 90))%N then (c + 32)%N
  else if ((192 <=? c) && (c <=? 222) && negb (c =? 215))%N then (c + 32)%N
  else c.

Fixpoint digits (fuel : nat) (n : N) (acc : jsstring) : jsstring :=
  match fuel with
  | O => acc
  | S fuel' =>
      let acc' := (48 + n mod 10)%N :: acc in
      if (n / 10 =? 0)%N then acc' else digits fuel' (n / 10)%N acc'
  end.

(** Decimal digits of an integral number; the examples print no other. *)
Definition print (q : Q) : jsstring :=
  let z := Qfloor q in
  let d := digits (S (N.to_nat (N.log2 (Z.abs_N z)))) (Z.abs_N z) [] in
  if (z <? 0)%Z then 45%N :: d else d.

(** Rounding to the nearest integer, halves upwards, of the exact ratio. *)
Definition percent (a b : nat) : Z :=
  ((200 * Z.of_nat a + Z.of_nat b) / (2 * Z.of_nat b))%Z.

#[export] Instance runtime : Runtime :=
  {| toLowerCase := map lower_unit;
     Number_toString := print;
     round_percent := percent |}.

(** An outside that always answers the same and whose storage never fails. *)
Definition services (embedding : Outcome EmbeddingResponse)
    (matches : Outcome (list VMatch)) (completion : Outcome HttpResponse)
  : Services :=
  {| AZURE_OPENAI_ENDPOINT := lit "https://example.openai.azure.com";
     AZURE_OPENAI_API_VERSION := lit "2024-02-01";
     AZURE_OPENAI_DEPLOYMENT_NAME := lit "gpt";
     AZURE_OPENAI_API_KEY := None;
     AI_run := fun _ _ _ => embedding;
     VECTORIZE_query := fun _ _ _ => matches;
     global_fetch := fun _ _ => completion;
     Date_toISOString := fun _ => lit "2025-01-01T00:00:00.000Z";
     storage_get_failure := fun _ => None;
     storage_put_failure := fun _ => None;
     stub_fetch_failure := fun _ => None |}.

Definition unreachable : Thrown := JsError (lit "fetch failed").

Definition one_vector : Outcome EmbeddingResponse :=
  Returns {| data := Some [[1; 0]%Q] |}.

(** Every provider is down. *)
Definition offline : Services :=
  services (Throws unreachable) (Throws unreachable) (Throws unreachable).

Definition doc (id : string) (score : Q) (text : jsstring) : VMatch :=
  {| m_id := lit id;
     m_score := score;
     m_metadata := Some [ (lit "content", MStr text);
                          (lit "title", MStr (lit "Manual")) ] |}.

(** The index holds one short document that scores 0.5. *)
Definition weak_match : Services :=
  services one_vector (Returns [doc "doc-1-0" (1 # 2) (lit "hola mundo")])
    (Throws unreachable).

(** What the pipeline answers to the question "hola" over that index. *)
Definition weak_result : PipelineResult :=
  {| res_question := lit "hola";
     res_answer := no_information;
     res_usedRAG := true;
     res_sources :=
       [ {| src_id := lit "doc-1-0";
            src_score := 1 # 2;
            src_title := Some (MStr (lit "Manual"));
            src_content := Some (lit "hola mundo...") |} ];
     res_context_used := false |}.

(** Later routes that answer every request with an empty object. *)
Definition discovery : LaterRoutes :=
  {| later_routes := fun _ =>
       ret (Response_json 200 (POther (lit "{}"))) |}.

Definition empty_world : World := {| chat_history := None; log := [] |}.

Definition no_body : Outcome JsonBody :=
  Throws (JsError (lit "Unexpected end of JSON input")).

Definition interaction (n : nat) (rag : bool) : InteractionRecord :=
  {| rec_question := Some (lit "q" ++ print (inject_Z (Z.of_nat n)));
     rec_answer := Some (lit "a");
     rec_usedRAG := Some rag;
     rec_timestamp := Some (lit "2025-01-01T00:00:00.000Z") |}.

End Sample.

(** ** The routes after [/chat] *)

(** One element of [documents] in the body of [/insert]: a string, or an
    object with the fields the handler reads. *)
Inductive Document :=
| DocString (s : jsstring)
| DocObject (content text title source : option jsstring).

(** A request of the worker with the two fields of its parsed body that the
    routes after [/chat] destructure besides those of [JsonBody]: [query]
    for [/search], and [documents] for [/insert] ([None]: absent or not an
    array). *)
Record WorkerRequest := {
  base : Request;
  b_query : option jsstring;
  b_documents : option (list Document)
}.

(** One element of [matches] in the answer of [/search]. *)
Record SearchHit := {
  hit_id : jsstring;
  hit_score : Q;
  hit_title : option MetaValue;
  hit_content : option MetaValue;
  hit_source : option MetaValue;
  hit_timestamp : option MetaValue
}.

(** The objects these routes give to [Response.json] that no earlier route
    builds. *)
Inductive WorkerPayload :=
| WDecision (question decision reasoning : jsstring)
| WSearch (query : jsstring) (matches : list SearchHit)
| WAgentStatus (status : jsstring) (capabilities : list jsstring)
               (timestamp : jsstring)
| WHealth (status : jsstring) (services : list jsstring)
          (timestamp : jsstring)
| WInserted (inserted : nat) (message : jsstring)
| WDiscovery (message : jsstring) (endpoints : list (jsstring * jsstring))
             (features : list jsstring).

Inductive WorkerBody :=
| WShared (b : Body)
| WJson (p : WorkerPayload).

Record WorkerResponse := {
  w_status : Z;
  w_headers : list (jsstring * jsstring);
  w_body : WorkerBody
}.

(** A response of the earlier routes, as a response of the worker. *)
Definition shared (r : Response) : WorkerResponse :=
  {| w_status := status r; w_headers := headers r;
     w_body := WShared (body r) |}.

(** [Response.json(payload, { status, headers: corsHeaders })] *)
Definition Worker_json (st : Z) (p : WorkerPayload) : WorkerResponse :=
  {| w_status := st; w_headers := corsHeaders; w_body := WJson p |}.

(** [await response.json()] on a response of the durable object. *)
Definition response_json (r : Response) : Outcome Payload :=
  match body r with
  | BJson p => Returns p
  | _ => Throws (JsError (lit "Unexpected end of JSON input"))
  end.

(** The request [agentStub.fetch("https://agent.internal" + path)] makes: a
    GET without body (no route that answers a GET reads the body). *)
Definition stub_get (path : jsstring) : Request :=
  {| pathname := path;
     method := lit "GET";
     req_json := Throws (JsError (lit "Unexpected end of JSON input")) |}.

(** [match => ({ id, score, title, content, source, timestamp })] *)
Definition hit_of (m : VMatch) : SearchHit :=
  {| hit_id := m_id m;
     hit_score := m_score m;
     hit_title := metadata_field (lit "title") m;
     hit_content := metadata_field (lit "content") m;
     hit_source := metadata_field (lit "source") m;
     hit_timestamp := metadata_field (lit "timestamp") m |}.

Definition discovery_document : WorkerPayload :=
  WDiscovery
    (lit "RAG API Server with Intelligent Agent")
    [ (lit "POST /chat",
       lit "Ask questions with intelligent RAG/General routing");
      (lit "POST /insert", lit "Insert documents into knowledge base");
      (lit "POST /search", lit "Search documents by similarity");
      (lit "POST /agent/test", lit "Test agent decision making");
      (lit "GET /agent/status", lit "Get agent status");
      (lit "GET /agent/history",
       lit "Get conversation history from Durable Object");
      (lit "GET /agent/stats", lit "Get agent usage statistics");
      (lit "GET /health", lit "Health check") ]
    [ lit "Intelligent routing between RAG and general responses";
      lit "Document embedding and search";
      lit "AI-powered decision making";
      lit "Vector similarity search";
      lit "Persistent conversation history via Durable Objects";
      lit "Usage analytics and statistics" ].

(** The [/insert] route, which embeds a batch and writes to the index. *)
Class InsertRoute := {
  insert : WorkerRequest -> M WorkerResponse
}.

Section Worker.
Context {rt : Runtime} {sv : Services} {ir : InsertRoute}.

(** The [/search] route. *)
Definition search (request : WorkerRequest) : M WorkerResponse :=
  try_catch
    (b <- await (req_json (base request)) ;;
     let query := b_query request in
     let topK := match b_topK b with Some k => k | None => 5%Q end in
     match query with
     | None | Some [] =>
         ret (shared (Response_json 400
                        (PError (lit "Query is required") None)))
     | Some query =>
         queryVector <- env_AI_run embedding_model query ;;
         match data queryVector with
         | None | Some [] =>
             ret (shared (Response_json 500
                            (PError (lit "No query vector data received")
                               None)))
         | Some (vector :: _) =>
             matches <- env_VECTORIZE_query vector topK ;;
             ret (Worker_json 200 (WSearch query (map hit_of matches)))
         end
     end)
    (fun error =>
       ret (shared (Response_json 500
                      (PError (lit "Search failed")
                         (Some (message_of error)))))).

(** The [/agent/status] route. *)
Definition agent_status : M WorkerResponse :=
  timestamp <- new_Date_toISOString ;;
  ret (Worker_json 200
         (WAgentStatus (lit "Agent is running")
            [ lit "RAG decision-making"; lit "Document search";
              lit "General conversation" ]
            timestamp)).

(** The [/agent/history] route. *)
Definition agent_history : M WorkerResponse :=
  try_catch
    (response <- agentStub_fetch (stub_get (lit "/history")) ;;
     data <- await (response_json response) ;;
     ret (shared (Response_json 200 data)))
    (fun error =>
       ret (shared (Response_json 500
                      (PError (lit "Failed to get agent history")
                         (Some (message_of error)))))).

(** The [/agent/stats] route. *)
Definition agent_stats : M WorkerResponse :=
  try_catch
    (response <- agentStub_fetch (stub_get (lit "/stats")) ;;
     data <- await (response_json response) ;;
     ret (shared (Response_json 200 data)))
    (fun error =>
       ret (shared (Response_json 500
                      (PError (lit "Failed to get agent stats")
                         (Some (message_of error)))))).

(** The [/agent/test] route. *)
Definition agent_test (request : WorkerRequest) : M WorkerResponse :=
  try_catch
    (b <- await (req_json (base request)) ;;
     match b_question b with
     | None | Some [] =>
         ret (shared (Response_json 400
                        (PError (lit "Question is required") None)))
     | Some question =>
         shouldUse <- shouldUseRAG question ;;
         ret (Worker_json 200
                (WDecision question
                   (if shouldUse : bool then lit "RAG" else lit "GENERAL")
                   (if shouldUse
                    then lit "This question appears to require specific document search"
                    else lit "This question can be answered with general knowledge")))
     end)
    (fun error =>
       ret (shared (Response_json 500
                      (PError (lit "Failed to test agent decision")
                         (Some (message_of error)))))).

(** The [/health] route. *)
Definition health : M WorkerResponse :=
  timestamp <- new_Date_toISOString ;;
  ret (Worker_json 200
         (WHealth (lit "healthy")
            [ lit "RAG"; lit "Agent"; lit "Vectorize"; lit "Workers AI" ]
            timestamp)).

(** The routes of the worker's [fetch] from [/insert] on, in its order. *)
Definition routes_after_chat (request : WorkerRequest) : M WorkerResponse :=
  let path := pathname (base request) in
  let POST := str_eqb (method (base request)) (lit "POST") in
  if str_eqb path (lit "/insert") && POST then insert request
  else if str_eqb path (lit "/search") && POST then search request
  else if str_eqb path (lit "/agent/status") then agent_status
  else if str_eqb path (lit "/agent/history") then agent_history
  else if str_eqb path (lit "/agent/stats") then agent_stats
  else if str_eqb path (lit "/agent/test") && POST then agent_test request
  else if str_eqb path (lit "/health") then health
  else ret (Worker_json 200 discovery_document).

(** The worker's [fetch] with all its routes. *)
Definition worker_fetch (request : WorkerRequest) : M WorkerResponse :=
  let path := pathname (base request) in
  if startsWith path (lit "/favicon") then ret (shared favicon_response)
  else if str_eqb (method (base request)) (lit "OPTIONS")
  then ret (shared preflight_response)
  else if str_eqb path (lit "/chat")
          && str_eqb (method (base request)) (lit "POST")
  then response <- chat (base request) ;; ret (shared response)
  else routes_after_chat request.

End Worker.

(** The saves of a list of bodies, one request to the durable object after
    the other. *)
Definition save_body (b : JsonBody) : Request :=
  {| pathname := lit "/save"; method := lit "POST"; req_json := Returns b |}.

Fixpoint save_all {rt : Runtime} {sv : Services} (bodies : list JsonBody)
  : M unit :=
  match bodies with
  | [] => ret tt
  | b :: rest => MyAgent_fetch (save_body b) ;; save_all rest
  end.

(** What the three lines after a completion call make of its response: the
    parsed body, or the error thrown on the way to it. *)
Definition reply_of {rt : Runtime} (response : HttpResponse)
  : Outcome AzureOpenAIResponse :=
  if ok response then http_json response
  else
    match http_text response with
    | Returns text =>
        Throws (JsError (lit "Azure OpenAI API error: "
                           ++ Number_toString (inject_Z (http_status response))
                           ++ lit " - " ++ text))
    | Throws e => Throws e
    end.

(** Where [processGeneral] ends when its [try] block throws [e]. *)
Definition general_failure (e : Thrown) (w : World)
  : Outcome PipelineResult * World :=
  (Throws (JsError (lit "General processing failed: " ++ message_of e)),
   record (EvConsoleError (lit "Error in processGeneral:") e) w).

(** The events a run adds to the log are those before the ones it had. *)
Definition added (w w' : World) (new : list Event) : Prop :=
  log w' = new ++ log w.

(** A storage and a stub that never fail. *)
Definition store_reliable {sv : Services} : Prop :=
  forall l,
    storage_get_failure l = None
    /\ storage_put_failure l = None
    /\ stub_fetch_failure l = None.

(** ** More of the outside for the examples *)

Module Scenario.

(** An [/insert] route that writes nothing. *)
Definition idle_insert : InsertRoute :=
  {| insert := fun _ => ret (Worker_json 200 (WInserted 0 [])) |}.

(** A completion reply with one choice. *)
Definition reply (text : jsstring) : Outcome HttpResponse :=
  Returns
    {| ok := true;
       http_status := 200;
       http_text := Returns [];
       http_json :=
         Returns {| choices :=
                      Some [ {| ch_message :=
                                  Some {| cm_content := Some text |} |} ] |}
    |}.

(** The index holds one document that scores 0.9 and the completion
    endpoint answers. *)
Definition answering : Services :=
  Sample.services Sample.one_vector
    (Returns [Sample.doc "doc-1-0" (9 # 10) (lit "hola mundo")])
    (reply (lit "Hola.")).

(** The same index, with the completion endpoint down. *)
Definition silent : Services :=
  Sample.services Sample.one_vector
    (Returns [Sample.doc "doc-1-0" (9 # 10) (lit "hola mundo")])
    (Throws Sample.unreachable).

(** The embedding model answers without a vector. *)
Definition no_vector : Services :=
  Sample.services (Returns {| data := Some [] |})
    (Throws Sample.unreachable) (Throws Sample.unreachable).

(** A storage that cannot be read. *)
Definition unreadable_store : Services :=
  {| AZURE_OPENAI_ENDPOINT := lit "https://example.openai.azure.com";
     AZURE_OPENAI_API_VERSION := lit "2024-02-01";
     AZURE_OPENAI_DEPLOYMENT_NAME := lit "gpt";
     AZURE_OPENAI_API_KEY := None;
     AI_run := fun _ _ _ => Throws Sample.unreachable;
     VECTORIZE_query := fun _ _ _ => Throws Sample.unreachable;
     global_fetch := fun _ _ => Throws Sample.unreachable;
     Date_toISOString := fun _ => lit "2025-01-01T00:00:00.000Z";
     storage_get_failure := fun _ => Some (JsError (lit "storage is down"));
     storage_put_failure := fun _ => None;
     stub_fetch_failure := fun _ => None |}.

Definition body_of (question : option jsstring) (force : option bool)
  : JsonBody :=
  {| b_question := question; b_topK := None; b_forceRAG := force;
     b_answer := None; b_usedRAG := None; b_timestamp := None |}.

Definition post (path : string) (b : Outcome JsonBody) : Request :=
  {| pathname := lit path; method := lit "POST"; req_json := b |}.

Definition get (path : string) : Request :=
  {| pathname := lit path; method := lit "GET"; req_json := Sample.no_body |}.

Definition plain (request : Request) : WorkerRequest :=
  {| base := request; b_query := None; b_documents := None |}.

Definition query_for (text : jsstring) : WorkerRequest :=
  {| base := post "/search" (Returns (body_of None None));
     b_query := Some text; b_documents := None |}.

(** What the pipelines answer to "hola" when the completion endpoint
    answers "Hola.". *)
Definition strong_result : PipelineResult :=
  {| res_question := lit "hola";
     res_answer := lit "Hola.";
     res_usedRAG := true;
     res_sources :=
       [ {| src_id := lit "doc-1-0";
            src_score := 9 # 10;
            src_title := Some (MStr (lit "Manual"));
            src_content := Some (lit "hola mundo...") |} ];
     res_context_used := true |}.

Definition general_result : PipelineResult :=
  {| res_question := lit "hola";
     res_answer := lit "Hola.";
     res_usedRAG := false;
     res_sources := [];
     res_context_used := false |}.

(** A match without metadata. *)
Definition bare_match : VMatch :=
  {| m_id := lit "doc-2-0"; m_score := 95 # 100; m_metadata := None |}.

Definition two_records : World :=
  {| chat_history :=
       Some [Sample.interaction 0 true; Sample.interaction 1 false];
     log := [] |}.

End Scenario.

(** * Properties *)

Arguments lit : simpl never.

(** ** Strings and lists *)

Lemma str_eqb_eq (a b : jsstring) : str_eqb a b = true <-> a = b.
Proof.
  revert b; induction a as [|x a IH]; intros [|y b]; simpl; split;
    try congruence; try reflexivity.
  - intros H. apply andb_true_iff in H as [H1 H2].
    apply N.eqb_eq in H1. apply IH in H2. congruence.
  - intros H. injection H as -> ->.
    rewrite N.eqb_refl. simpl. now apply IH.
Qed.

Lemma str_eqb_refl (a : jsstring) : str_eqb a a = true.
Proof. now apply str_eqb_eq. Qed.

Lemma substring0_short (n : nat) (s : jsstring) :
  length s <= n -> substring0 n s = s.
Proof. intros H. unfold substring0. now apply firstn_all2. Qed.

Lemma substring0_long (n : nat) (s : jsstring) :
  n < length s -> length (substring0 n s) = n /\ substring0 n s <> s.
Proof.
  intros H. unfold substring0.
  assert (L : length (firstn n s) = n) by (rewrite length_firstn; lia).
  split; [exact L|]. intros E. rewrite E in L. lia.
Qed.

Lemma slice_last_length {A} (n : nat) (xs : list A) :
  0 < n -> length (slice_last n xs) = Nat.min n (length xs).
Proof.
  intros H. unfold slice_last. destruct n; [lia|].
  rewrite length_skipn. lia.
Qed.

Lemma slice_last_full {A} (n : nat) (xs : list A) (x : A) :
  length xs = n -> slice_last n (xs ++ [x]) = tl xs ++ [x].
Proof.
  intros H. unfold slice_last. destruct n as [|n].
  - destruct xs; [reflexivity|discriminate].
  - rewrite length_app. simpl length.
    replace (length xs + 1 - S n) with 1 by lia.
    destruct xs; [discriminate|reflexivity].
Qed.

Lemma filter_split_length {A} (p : A -> bool) (xs : list A) :
  length (filter p xs) + length (filter (fun x => negb (p x)) xs)
  = length xs.
Proof.
  induction xs as [|x xs IH]; simpl; [reflexivity|].
  destruct (p x); simpl; lia.
Qed.

Example lit_ascii : lit "rag" = [114; 97; 103]%N.
Proof. reflexivity. Qed.

Example lit_accents : length (lit "cómo estás") = 10.
Proof. reflexivity. Qed.

Example lit_two_bytes : lit "¿qué?" = [191; 113; 117; 233; 63]%N.
Proof. reflexivity. Qed.

Example lit_three_bytes : lit "€" = [8364]%N.
Proof. reflexivity. Qed.

Example ragKeywords_lengths :
  map (@length N) ragKeywords = [8; 7; 22; 18; 27; 14; 18; 9; 11; 7; 17].
Proof. reflexivity. Qed.

Example includes_inside : includes (lit "el documento") (lit "document") = true.
Proof. reflexivity. Qed.

Example slice_last_3 : slice_last 3 [1; 2; 3; 4; 5] = [3; 4; 5].
Proof. reflexivity. Qed.

Example slice_last_few : slice_last 3 [1; 2] = [1; 2].
Proof. reflexivity. Qed.

(** ** The history store *)

Lemma push_trim_length (history : list InteractionRecord)
    (r : InteractionRecord) :
  length (push_trim history r) <= 100.
Proof.
  unfold push_trim. destruct (100 <? _) eqn:E.
  - rewrite slice_last_length; lia.
  - apply Nat.ltb_ge in E. exact E.
Qed.

Lemma push_trim_slice (history : list InteractionRecord)
    (r : InteractionRecord) :
  push_trim history r = slice_last 100 (history ++ [r]).
Proof.
  unfold push_trim. destruct (100 <? _) eqn:E; [reflexivity|].
  apply Nat.ltb_ge in E. unfold slice_last.
  replace (length (history ++ [r]) - 100) with 0 by lia. reflexivity.
Qed.

Lemma push_trim_room (history : list InteractionRecord)
    (r : InteractionRecord) :
  length history < 100 -> push_trim history r = history ++ [r].
Proof.
  intros H. unfold push_trim. rewrite length_app. simpl.
  destruct (100 <? _) eqn:E; [|reflexivity].
  apply Nat.ltb_lt in E. lia.
Qed.

(** Any run of saves that is not empty leaves at most 100 records. *)
Lemma push_trim_many (history : list InteractionRecord)
    (rs : list InteractionRecord) :
  rs <> [] -> length (fold_left push_trim rs history) <= 100.
Proof.
  intros Hne. destruct (exists_last Hne) as (rs' & r & ->).
  rewrite fold_left_app. simpl. apply push_trim_length.
Qed.

Lemma push_trim_full (history : list InteractionRecord)
    (r : InteractionRecord) :
  length history = 100 -> push_trim history r = tl history ++ [r].
Proof.
  intros H. rewrite push_trim_slice. now apply slice_last_full.
Qed.

Section HistoryStore.
Context {rt : Runtime} {sv : Services}.

(** The [/save] route, step by step. *)
Lemma save_run (request : Request) (w : World) :
  pathname request = lit "/save" ->
  method request = lit "POST" ->
  MyAgent_fetch request w =
  match req_json request with
  | Throws e =>
      (Returns (failure_response (lit "Failed to save to history") e), w)
  | Returns b =>
      let w1 := record (EvStorageGet (storage_get_failure (log w))) w in
      match storage_get_failure (log w) with
      | Some e =>
          (Returns (failure_response (lit "Failed to save to history") e), w1)
      | None =>
          let history := push_trim (stored_history w) (record_of b) in
          match storage_put_failure (log w1) with
          | Some e =>
              (Returns
                 (failure_response (lit "Failed to save to history") e),
               record (EvStoragePut (Some e)) w1)
          | None =>
              (Returns (Response_json 200 (PSaved (length history))),
               {| chat_history := Some history;
                  log := EvStoragePut None :: log w1 |})
          end
      end
  end.
Proof.
  intros Hp Hm. unfold MyAgent_fetch. rewrite Hp, Hm.
  change (str_eqb (lit "POST") (lit "OPTIONS")) with false.
  change (str_eqb (lit "/save") (lit "/history")) with false.
  change (str_eqb (lit "/save") (lit "/save")) with true.
  change (str_eqb (lit "POST") (lit "POST")) with true.
  cbn [andb].
  unfold try_catch, bind, await, storage_get, storage_put, ret.
  destruct (req_json request) as [b|e]; [|reflexivity].
  cbv zeta.
  destruct (storage_get_failure (log w)) as [e|]; [reflexivity|].
  unfold stored_history, record_of. cbn [log record].
  destruct (storage_put_failure _) as [e|]; reflexivity.
Qed.

(** A save whose body parses and whose storage answers does complete. *)
Lemma save_completes (request : Request) (w : World) (b : JsonBody) :
  pathname request = lit "/save" ->
  method request = lit "POST" ->
  req_json request = Returns b ->
  storage_get_failure (log w) = None ->
  storage_put_failure (EvStorageGet None :: log w) = None ->
  exists w',
    MyAgent_fetch request w =
    (Returns (Response_json 200
                (PSaved (length (push_trim (stored_history w) (record_of b))))),
     w')
    /\ chat_history w' = Some (push_trim (stored_history w) (record_of b)).
Proof.
  intros Hp Hm Hb Hg Hput. rewrite (save_run _ _ Hp Hm), Hb, Hg.
  cbv zeta. simpl log. rewrite Hput. eexists. split; reflexivity.
Qed.

(** The [/stats] route, step by step. *)
Lemma stats_run (request : Request) (w : World) :
  pathname request = lit "/stats" ->
  method request = lit "GET" ->
  MyAgent_fetch request w =
  let w1 := record (EvStorageGet (storage_get_failure (log w))) w in
  match storage_get_failure (log w) with
  | Some e => (Returns (failure_response (lit "Failed to get stats") e), w1)
  | None =>
      (Returns (Response_json 200 (PStats (stats_of (stored_history w)))), w1)
  end.
Proof.
  intros Hp Hm. unfold MyAgent_fetch. rewrite Hp, Hm.
  change (str_eqb (lit "GET") (lit "OPTIONS")) with false.
  change (str_eqb (lit "/stats") (lit "/history")) with false.
  change (str_eqb (lit "/stats") (lit "/save")) with false.
  change (str_eqb (lit "/stats") (lit "/stats")) with true.
  change (str_eqb (lit "GET") (lit "GET")) with true.
  cbn [andb].
  unfold try_catch, bind, storage_get, ret. cbv zeta.
  destruct (storage_get_failure (log w)) as [e|]; reflexivity.
Qed.

(** Only the [/stats] route answers with statistics, and they are those of
    the stored history. *)
Lemma stats_only_from_history (request : Request) (w w' : World)
    (response : Response) (s : Stats) :
  MyAgent_fetch request w = (Returns response, w') ->
  body response = BJson (PStats s) ->
  s = stats_of (stored_history w).
Proof.
  unfold MyAgent_fetch, try_catch, bind, await, storage_get, storage_put, ret,
    stored_history.
  cbv zeta.
  repeat match goal with
         | |- context [if ?c then _ else _] => destruct c
         | |- context [match ?o with Some _ => _ | None => _ end] =>
             destruct o
         | |- context [match ?o with Returns _ => _ | Throws _ => _ end] =>
             destruct o
         end;
    intros H Hb; injection H as <- _; simpl in Hb;
    try discriminate; injection Hb as <-; reflexivity.
Qed.

End HistoryStore.

(** ** The classifier *)

Section Classifier.
Context {rt : Runtime} {sv : Services}.

Lemma has_keyword_iff (keywords : list jsstring) (question : jsstring) :
  has_keyword keywords question = true <->
  exists keyword,
    In keyword keywords /\
    includes (toLowerCase question) (toLowerCase keyword) = true.
Proof. unfold has_keyword, some. apply existsb_exists. Qed.

(** A question with a RAG keyword is settled without any call. *)
Lemma shouldUseRAG_rag_keyword (question : jsstring) (w : World) :
  has_keyword ragKeywords question = true ->
  shouldUseRAG question w = (Returns true, w).
Proof.
  intros H. unfold shouldUseRAG. fold (has_keyword ragKeywords question).
  rewrite H. reflexivity.
Qed.

(** So is a question with a general keyword and no RAG keyword. *)
Lemma shouldUseRAG_general_keyword (question : jsstring) (w : World) :
  has_keyword ragKeywords question = false ->
  has_keyword generalKeywords question = true ->
  shouldUseRAG question w = (Returns false, w).
Proof.
  intros H1 H2. unfold shouldUseRAG.
  fold (has_keyword ragKeywords question).
  fold (has_keyword generalKeywords question).
  rewrite H1, H2. reflexivity.
Qed.

(** The call the classifier makes is recognised as such. *)
Lemma decision_request_is_classifier_call (question : jsstring)
    (o : Outcome HttpResponse) :
  is_classifier_call (EvFetch (decision_request question) o) = true.
Proof. reflexivity. Qed.

(** The calls of the two pipelines are not. *)
Lemma pipeline_requests_are_quiet (context question : jsstring)
    (o : Outcome HttpResponse) :
  quiet (EvFetch (rag_request context question) o) = true
  /\ quiet (EvFetch (general_request question) o) = true.
Proof. split; reflexivity. Qed.

(** An ambiguous question makes exactly one completion call; when that call
    fails the answer comes from the length of the question, and otherwise
    from the text of the reply. *)
Lemma shouldUseRAG_ambiguous (question : jsstring) (w : World) :
  has_keyword ragKeywords question = false ->
  has_keyword generalKeywords question = false ->
  let req := decision_request question in
  let o := global_fetch (log w) req in
  let w1 := record (EvFetch req o) w in
  (forall e, o = Throws e ->
     shouldUseRAG question w =
     (Returns (20 <? length (toLowerCase question)),
      record (EvConsoleError (lit "Error in shouldUseRAG:") e) w1))
  /\ (forall r, o = Returns r -> call_failed o = true ->
        exists e,
          shouldUseRAG question w =
          (Returns (20 <? length (toLowerCase question)),
           record (EvConsoleError (lit "Error in shouldUseRAG:") e) w1))
  /\ (forall r a, o = Returns r -> ok r = true -> http_json r = Returns a ->
        shouldUseRAG question w =
        (Returns (includes (toLowerCase (or_else (first_content a) []))
                    (lit "rag")), w1)).
Proof.
  intros H1 H2 req o w1.
  assert (E : shouldUseRAG question w =
              try_catch
                (response <- fetch_completion req ;;
                 check_ok response ;;
                 decisionResponse <- await (http_json response) ;;
                 ret (includes
                        (toLowerCase
                           (or_else (first_content decisionResponse) []))
                        (lit "rag")))
                (fun error =>
                   console_error (lit "Error in shouldUseRAG:") error ;;
                   ret (20 <? length (toLowerCase question))) w).
  { unfold shouldUseRAG.
    fold (has_keyword ragKeywords question).
    fold (has_keyword generalKeywords question).
    rewrite H1, H2. reflexivity. }
  rewrite E. clear E.
  unfold try_catch, bind, fetch_completion, check_ok, await, throw, ret,
    console_error, bind.
  fold req. cbv zeta. fold o. fold w1.
  repeat split.
  - intros e He. rewrite He. reflexivity.
  - intros r Hr Hf. rewrite Hr in *. simpl in Hf.
    destruct (ok r); simpl in *.
    + destruct (http_json r); [discriminate|]. eexists; reflexivity.
    + destruct (http_text r); eexists; reflexivity.
  - intros r a Hr Hok Hj. rewrite Hr, Hok. simpl. rewrite Hj. reflexivity.
Qed.

(** The classifier only adds to the log, and never throws. *)
Lemma shouldUseRAG_total (question : jsstring) (w : World) :
  exists decision new,
    fst (shouldUseRAG question w) = Returns decision
    /\ log (snd (shouldUseRAG question w)) = new ++ log w.
Proof.
  destruct (has_keyword ragKeywords question) eqn:Hr.
  { rewrite shouldUseRAG_rag_keyword by exact Hr.
    exists true, []. split; reflexivity. }
  destruct (has_keyword generalKeywords question) eqn:Hg.
  { rewrite shouldUseRAG_general_keyword by assumption.
    exists false, []. split; reflexivity. }
  pose proof (shouldUseRAG_ambiguous question w Hr Hg) as H.
  cbv zeta in H. destruct H as (Hthrow & Hbad & Hgood).
  destruct (global_fetch (log w) (decision_request question))
    as [response|e] eqn:Ho.
  - destruct (call_failed (Returns response)) eqn:Hcf.
    + destruct (Hbad response eq_refl eq_refl) as [e He].
      rewrite He. eexists _, [_; _]. split; reflexivity.
    + simpl in Hcf. apply orb_false_iff in Hcf as [Hok Hj].
      apply negb_false_iff in Hok.
      destruct (http_json response) as [a|] eqn:Ea; [|discriminate].
      rewrite (Hgood response a eq_refl Hok Ea).
      eexists _, [_]. split; reflexivity.
  - rewrite (Hthrow e eq_refl). eexists _, [_; _]. split; reflexivity.
Qed.

End Classifier.

(** ** The RAG pipeline *)

Section Pipeline.
Context {rt : Runtime} {sv : Services}.

Lemma above_threshold_false (m : VMatch) :
  (m_score m <= threshold)%Q -> above_threshold m = false.
Proof.
  intros H. unfold above_threshold.
  apply Qle_bool_iff in H. rewrite H. reflexivity.
Qed.

Lemma above_threshold_true (m : VMatch) :
  (threshold < m_score m)%Q -> above_threshold m = true.
Proof.
  intros H. unfold above_threshold.
  destruct (Qle_bool (m_score m) threshold) eqn:E; [|reflexivity].
  apply Qle_bool_iff in E. exfalso. exact (Qlt_not_le _ _ H E).
Qed.

(** A match at or below the threshold can be taken out of the list without
    changing the context. *)
Lemma context_of_drop (pre post : list VMatch) (m : VMatch) :
  (m_score m <= threshold)%Q ->
  context_of (pre ++ m :: post) = context_of (pre ++ post).
Proof.
  intros H. unfold context_of. rewrite !filter_app. simpl.
  rewrite (above_threshold_false _ H). reflexivity.
Qed.

(** When no match is above the threshold the context is empty. *)
Lemma context_of_all_below (matches : list VMatch) :
  (forall m, In m matches -> (m_score m <= threshold)%Q) ->
  context_of matches = [].
Proof.
  intros H. unfold context_of.
  replace (filter above_threshold matches) with (@nil VMatch); [reflexivity|].
  symmetry. induction matches as [|m ms IH]; [reflexivity|]. simpl.
  rewrite (above_threshold_false m) by (apply H; now left).
  apply IH. intros m' Hm'. apply H. now right.
Qed.

(** The pipeline, step by step. *)
Lemma processWithRAG_run (question : jsstring) (topK : Q) (w : World) :
  processWithRAG question topK w =
  let o1 := AI_run (log w) embedding_model question in
  let w1 := record (EvEmbed embedding_model question o1) w in
  match o1 with
  | Throws e => rag_failure e w1
  | Returns queryVector =>
      match data queryVector with
      | None | Some [] =>
          rag_failure (JsError (lit "Failed to generate query embedding")) w1
      | Some (vector :: _) =>
          let o2 := VECTORIZE_query (log w1) vector topK in
          let w2 := record (EvQuery vector topK o2) w1 in
          match o2 with
          | Throws e => rag_failure e w2
          | Returns matches =>
              let context := context_of matches in
              let result answer :=
                {| res_question := question;
                   res_answer := answer;
                   res_usedRAG := true;
                   res_sources := map source_of matches;
                   res_context_used := 0 <? length context |} in
              if 0 <? length context then
                let req := rag_request context question in
                let o3 := global_fetch (log w2) req in
                let w3 := record (EvFetch req o3) w2 in
                match o3 with
                | Throws e => rag_failure e w3
                | Returns response =>
                    match
                      (check_ok response ;;
                       chatResponse <- await (http_json response) ;;
                       ret (or_else (first_content chatResponse) no_answer))
                        w3
                    with
                    | (Returns answer, w4) => (Returns (result answer), w4)
                    | (Throws e, w4) => rag_failure e w4
                    end
                end
              else (Returns (result no_information), w2)
          end
      end
  end.
Proof.
  unfold processWithRAG, rag_failure, try_catch, bind, env_AI_run,
    env_VECTORIZE_query, fetch_completion, throw, console_error, ret.
  cbv zeta.
  destruct (AI_run (log w) embedding_model question) as [emb|e];
    [|reflexivity].
  destruct (data emb) as [[|vector vs]|]; try reflexivity.
  destruct (VECTORIZE_query _ vector topK) as [matches|e]; [|reflexivity].
  destruct (0 <? length (context_of matches)); [|reflexivity].
  destruct (global_fetch _ _) as [response|e]; [|reflexivity].
  destruct (check_ok response _) as [[[]|e] w4]; [|reflexivity].
  unfold await. destruct (http_json response); reflexivity.
Qed.

(** Reading the reply of a completion call adds nothing to the log. *)
Lemma read_reply_log (response : HttpResponse) (fallback : jsstring)
    (w : World) :
  snd ((check_ok response ;;
        chatResponse <- await (http_json response) ;;
        ret (or_else (first_content chatResponse) fallback)) w) = w.
Proof.
  unfold check_ok, bind, await, throw, ret.
  destruct (ok response); simpl.
  - destruct (http_json response); reflexivity.
  - destruct (http_text response); reflexivity.
Qed.

(** What is known of a pipeline run that returned a result. *)
Lemma processWithRAG_returns (question : jsstring) (topK : Q)
    (w w' : World) (r : PipelineResult) :
  processWithRAG question topK w = (Returns r, w') ->
  exists queryVector vector rest matches new,
    AI_run (log w) embedding_model question = Returns queryVector
    /\ data queryVector = Some (vector :: rest)
    /\ VECTORIZE_query
         (EvEmbed embedding_model question (Returns queryVector) :: log w)
         vector topK = Returns matches
    /\ log w' = new ++ log w
    /\ chat_history w' = chat_history w
    /\ In (EvQuery vector topK (Returns matches)) new
    /\ (forall req o, In (EvFetch req o) new ->
          req = rag_request (context_of matches) question
          /\ context_of matches <> [])
    /\ res_question r = question
    /\ res_usedRAG r = true
    /\ res_sources r = map source_of matches
    /\ res_context_used r = (0 <? length (context_of matches))
    /\ (context_of matches = [] -> res_answer r = no_information).
Proof.
  rewrite processWithRAG_run. cbv zeta. unfold rag_failure.
  destruct (AI_run (log w) embedding_model question) as [emb|e];
    [|discriminate].
  destruct (data emb) as [[|vector vs]|] eqn:Ed; try discriminate.
  simpl log.
  destruct (VECTORIZE_query _ vector topK) as [matches|e] eqn:Eq;
    [|discriminate].
  destruct (0 <? length (context_of matches)) eqn:Ec.
  - destruct (global_fetch _ _) as [response|e] eqn:Ef; [|discriminate].
    match goal with
    | |- context [match ?run with (o, w4) => _ end] =>
        pose proof (read_reply_log response no_answer
                      (record (EvFetch (rag_request (context_of matches)
                                          question) (Returns response))
                         (record (EvQuery vector topK (Returns matches))
                            (record (EvEmbed embedding_model question
                                       (Returns emb)) w)))) as Hlog;
        destruct run as [[answer|e] w4] eqn:Erun
    end; [|discriminate].
    simpl in Hlog. subst w4.
    intros H. injection H as <- <-.
    exists emb, vector, vs, matches.
    eexists [_; _; _]. simpl.
    repeat split; try reflexivity; auto.
    + destruct H as [H|[H|[H|[]]]]; try discriminate.
      now injection H as <- _.
    + intros Hc. rewrite Hc in Ec. discriminate.
    + intros Hc. rewrite Hc in Ec. discriminate.
  - intros H. injection H as <- <-.
    exists emb, vector, vs, matches.
    eexists [_; _]. simpl.
    repeat split; try reflexivity; auto.
    + destruct H as [H|[H|[]]]; discriminate.
    + destruct H as [H|[H|[]]]; discriminate.
Qed.

End Pipeline.

(** ** The front door *)

Section Door.
Context {rt : Runtime} {sv : Services} {lr : LaterRoutes}.

(** Whatever its outcome, a pipeline run starts with the embedding call and
    never calls the classifier. *)
Lemma processWithRAG_log (question : jsstring) (topK : Q) (w : World) :
  exists later,
    log (snd (processWithRAG question topK w)) =
    (later ++ [EvEmbed embedding_model question
                 (AI_run (log w) embedding_model question)]) ++ log w
    /\ forallb quiet later = true.
Proof.
  rewrite processWithRAG_run. cbv zeta. unfold rag_failure.
  destruct (AI_run (log w) embedding_model question) as [emb|e].
  2:{ eexists [_]. split; reflexivity. }
  destruct (data emb) as [[|vector vs]|].
  1,3: eexists [_]; split; reflexivity.
  destruct (VECTORIZE_query _ vector topK) as [matches|e].
  2:{ eexists [_; _]. split; reflexivity. }
  destruct (0 <? length (context_of matches)).
  2:{ eexists [_]. split; reflexivity. }
  destruct (global_fetch _ _) as [response|e].
  2:{ eexists [_; _; _]. split; reflexivity. }
  match goal with
  | |- context [match ?run with (o, w4) => _ end] =>
      pose proof (read_reply_log response no_answer
                    (record (EvFetch (rag_request (context_of matches)
                                        question) (Returns response))
                       (record (EvQuery vector topK (Returns matches))
                          (record (EvEmbed embedding_model question
                                     (Returns emb)) w)))) as Hlog;
      destruct run as [[answer|e] w4]
  end; simpl in Hlog; subst w4.
  - eexists [_; _]. split; reflexivity.
  - eexists [_; _; _]. split; reflexivity.
Qed.

(** Recording the interaction never throws and calls no completion. *)
Lemma save_interaction_run (result : PipelineResult) (w : World) :
  exists w' new,
    save_interaction result w = (Returns tt, w')
    /\ log w' = new ++ log w
    /\ forallb quiet new = true.
Proof.
  unfold save_interaction, try_catch, bind, new_Date_toISOString,
    agentStub_fetch, console_error, ret. cbv zeta.
  set (ts := Date_toISOString (log w)).
  set (w1 := record (EvDate ts) w).
  destruct (stub_fetch_failure (log w1)) as [e|].
  - eexists _, [_; _; _]. repeat split.
  - rewrite save_run by reflexivity. simpl req_json. cbv zeta.
    set (w2 := record (EvStubFetch _ _) w1).
    destruct (storage_get_failure (log w2)) as [e|].
    + eexists _, [_; _; _]. repeat split.
    + destruct (storage_put_failure _) as [e|].
      * eexists _, [_; _; _; _]. repeat split.
      * eexists _, [_; _; _; _]. repeat split.
Qed.

(** The [/chat] route on a body that forces RAG for a non-empty question. *)
Lemma chat_forced (request : Request) (b : JsonBody) (question : jsstring)
    (w : World) :
  req_json request = Returns b ->
  b_question b = Some question ->
  question <> [] ->
  b_forceRAG b = Some true ->
  chat request w =
  match
    processWithRAG question
      (match b_topK b with Some k => k | None => 3%Q end) w
  with
  | (Throws e, w1) =>
      (Returns (Response_json 500
                  (PError (lit "Failed to process chat request")
                     (Some (message_of e)))),
       record (EvConsoleError (lit "Chat endpoint error:") e) w1)
  | (Returns result, w1) =>
      let w2 := snd (save_interaction result w1) in
      let timestamp := Date_toISOString (log w2) in
      (Returns (Response_json 200 (PChat result (lit "RAG") timestamp)),
       record (EvDate timestamp) w2)
  end.
Proof.
  intros Hb Hq Hne Hf. unfold chat, try_catch, bind, await.
  rewrite Hb, Hq, Hf. destruct question as [|c question]; [congruence|].
  unfold ret at 1.
  destruct (processWithRAG _ _ w) as [[result|e] w1]; [|reflexivity].
  destruct (save_interaction_run result w1) as (w2 & new & Hs & _ & _).
  rewrite Hs. reflexivity.
Qed.

(** A request that is neither for a favicon nor a preflight and is a POST to
    [/chat] reaches the chat handler. *)
Lemma fetch_chat (request : Request) (w : World) :
  pathname request = lit "/chat" ->
  method request = lit "POST" ->
  fetch request w = chat request w.
Proof.
  intros Hp Hm. unfold fetch. rewrite Hp, Hm. reflexivity.
Qed.

End Door.

(** * The properties of the specification *)

(** C1, as the code has it. The sources of a returned RAG result are the
    matches of the query mapped one by one; for a match whose [content] is a
    string the preview is the first 200 code units of the content followed by
    three dots, whatever the length: a content longer than 200 is cut to
    200, a content of at most 200 is kept whole, and in both cases the dots
    follow. For a match whose [content] is not a string the field is
    undefined. *)
Theorem sources_content_preview {rt : Runtime} {sv : Services} :
  (forall question topK w w' r,
      processWithRAG question topK w = (Returns r, w') ->
      exists vector matches new,
        log w' = new ++ log w
        /\ In (EvQuery vector topK (Returns matches)) new
        /\ res_sources r = map source_of matches)
  /\ (forall m s,
        metadata_field (lit "content") m = Some (MStr s) ->
        src_content (source_of m) = Some (substring0 200 s ++ lit "...")
        /\ (200 < length s ->
            length (substring0 200 s) = 200 /\ substring0 200 s <> s)
        /\ (length s <= 200 ->
            src_content (source_of m) = Some (s ++ lit "...")))
  /\ (forall m,
        (forall s, metadata_field (lit "content") m <> Some (MStr s)) ->
        src_content (source_of m) = None).
Proof.
  split; [|split].
  - intros question topK w w' r H.
    destruct (processWithRAG_returns _ _ _ H)
      as (emb & vector & rest & matches & new & _ & _ & _ & Hlog & _ & Hin
          & _ & _ & _ & Hs & _).
    exists vector, matches, new. repeat split; assumption.
  - intros m s H. unfold source_of. cbn [src_content]. rewrite H.
    split; [reflexivity|]. split.
    + intros Hl. now apply substring0_long.
    + intros Hl. now rewrite substring0_short.
  - intros m H. unfold source_of. cbn [src_content].
    destruct (metadata_field (lit "content") m) as [[s| | | |]|];
      try reflexivity.
    exfalso. exact (H s eq_refl).
Qed.

Lemma sources_content_preview_witness :
  src_content
    (source_of (Sample.doc "doc-7-0" (9 # 10) (repeat 97%N 250)))
  = Some (repeat 97%N 200 ++ lit "...").
Proof.
  destruct (proj1 (proj2 (sources_content_preview
                            (rt := Sample.runtime) (sv := Sample.offline)))
              (Sample.doc "doc-7-0" (9 # 10) (repeat 97%N 250))
              (repeat 97%N 250) eq_refl) as [H _].
  exact H.
Defined.

(** C1 as stated fails: a content of ten code units comes back with the
    three dots appended, not verbatim. *)
Lemma short_content_gets_ellipsis :
  fst (processWithRAG (rt := Sample.runtime) (sv := Sample.weak_match)
         (lit "hola") 3 Sample.empty_world)
  = Returns Sample.weak_result
  /\ map src_content (res_sources Sample.weak_result)
     = [Some (lit "hola mundo...")]
  /\ length (lit "hola mundo") <= 200
  /\ lit "hola mundo..." <> lit "hola mundo".
Proof.
  split; [reflexivity|]. split; [reflexivity|].
  split; [vm_compute; lia|]. discriminate.
Qed.

(** C2, as the code has it. An OPTIONS request is answered before any other
    processing, leaving the world as it was: for a path that starts with
    [/favicon] by the favicon rule, which is tested first, and for every
    other path with status 200, no body and the CORS headers only. *)
Theorem options_short_circuit {rt : Runtime} {sv : Services}
    {lr : LaterRoutes} (request : Request) (w : World) :
  method request = lit "OPTIONS" ->
  fetch request w =
  (Returns (if startsWith (pathname request) (lit "/favicon")
            then favicon_response else preflight_response), w)
  /\ status preflight_response = 200%Z
  /\ body preflight_response = BNull
  /\ headers preflight_response = corsHeaders.
Proof.
  intros Hm. unfold fetch. rewrite Hm.
  destruct (startsWith (pathname request) (lit "/favicon"));
    repeat split.
Qed.

Lemma options_short_circuit_witness :
  fetch (rt := Sample.runtime) (sv := Sample.offline) (lr := Sample.discovery)
    {| pathname := lit "/chat"; method := lit "OPTIONS";
       req_json := Sample.no_body |}
    Sample.empty_world
  = (Returns preflight_response, Sample.empty_world).
Proof.
  exact (proj1 (options_short_circuit
                  (rt := Sample.runtime) (sv := Sample.offline)
                  (lr := Sample.discovery)
                  {| pathname := lit "/chat"; method := lit "OPTIONS";
                     req_json := Sample.no_body |}
                  Sample.empty_world eq_refl)).
Defined.

(** C2 as stated fails: OPTIONS on a favicon path is answered 404, with an
    empty text body and no CORS header. *)
Lemma options_on_favicon_is_404 :
  fetch (rt := Sample.runtime) (sv := Sample.offline) (lr := Sample.discovery)
    {| pathname := lit "/favicon.ico"; method := lit "OPTIONS";
       req_json := Sample.no_body |}
    Sample.empty_world
  = (Returns {| status := 404; headers := []; body := BText [] |},
     Sample.empty_world)
  /\ 404%Z <> 200%Z.
Proof. split; [reflexivity|discriminate]. Qed.

(** C3. After a save that completed (the answer is the success object), the
    stored list is the list read before with the new record pushed at its
    end, cut to its last 100 records: it has at most 100 records, its length
    is the one reported, the new record is its last, and when the list held
    100 records before the save the oldest one left and the others kept
    their order. *)
Theorem save_bounded_fifo {rt : Runtime} {sv : Services}
    (request : Request) (w w' : World) (response : Response) (n : nat) :
  pathname request = lit "/save" ->
  method request = lit "POST" ->
  MyAgent_fetch request w = (Returns response, w') ->
  body response = BJson (PSaved n) ->
  exists b history,
    req_json request = Returns b
    /\ chat_history w' = Some history
    /\ length history = n
    /\ length history <= 100
    /\ (exists kept, history = kept ++ [record_of b])
    /\ (exists evicted, evicted ++ history = stored_history w ++ [record_of b])
    /\ (length (stored_history w) < 100 ->
        history = stored_history w ++ [record_of b])
    /\ (length (stored_history w) = 100 ->
        history = tl (stored_history w) ++ [record_of b]).
Proof.
  intros Hp Hm Hrun Hbody. rewrite (save_run _ _ Hp Hm) in Hrun.
  destruct (req_json request) as [b|e].
  2:{ injection Hrun as <- _. discriminate. }
  cbv zeta in Hrun.
  destruct (storage_get_failure (log w)) as [e|].
  1:{ injection Hrun as <- _. discriminate. }
  destruct (storage_put_failure _) as [e|].
  1:{ injection Hrun as <- _. discriminate. }
  injection Hrun as <- <-. simpl in Hbody. injection Hbody as <-.
  exists b, (push_trim (stored_history w) (record_of b)).
  split; [reflexivity|]. split; [reflexivity|]. split; [reflexivity|].
  split; [apply push_trim_length|].
  assert (Hsuffix : exists evicted,
             evicted ++ push_trim (stored_history w) (record_of b)
             = stored_history w ++ [record_of b]).
  { rewrite push_trim_slice. unfold slice_last.
    eexists. apply firstn_skipn. }
  split; [|split; [exact Hsuffix|split]].
  - destruct (Nat.lt_ge_cases (length (stored_history w)) 100) as [Hl|Hl].
    + exists (stored_history w). now apply push_trim_room.
    + rewrite push_trim_slice. unfold slice_last.
      rewrite length_app. simpl length.
      rewrite skipn_app.
      replace (length (stored_history w) + 1 - 100
               - length (stored_history w)) with 0 by lia.
      eexists. reflexivity.
  - apply push_trim_room.
  - apply push_trim_full.
Qed.

Lemma save_bounded_fifo_witness :
  exists history,
    chat_history
         (snd (MyAgent_fetch (rt := Sample.runtime) (sv := Sample.offline)
                 {| pathname := lit "/save"; method := lit "POST";
                    req_json :=
                      Returns
                        {| b_question := rec_question
                                           (Sample.interaction 100 true);
                           b_topK := None; b_forceRAG := None;
                           b_answer := Some (lit "a");
                           b_usedRAG := Some true;
                           b_timestamp :=
                             Some (lit "2025-01-01T00:00:00.000Z") |} |}
                 {| chat_history :=
                      Some (map (fun i => Sample.interaction i false)
                              (seq 0 100));
                    log := [] |}))
       = Some history
    /\ length history = 100
    /\ history
       = map (fun i => Sample.interaction i false) (seq 1 99)
           ++ [Sample.interaction 100 true].
Proof.
  destruct (@save_bounded_fifo Sample.runtime Sample.offline
              {| pathname := lit "/save"; method := lit "POST";
                 req_json :=
                   Returns
                     {| b_question := rec_question
                                        (Sample.interaction 100 true);
                        b_topK := None; b_forceRAG := None;
                        b_answer := Some (lit "a");
                        b_usedRAG := Some true;
                        b_timestamp :=
                          Some (lit "2025-01-01T00:00:00.000Z") |} |}
              {| chat_history :=
                   Some (map (fun i => Sample.interaction i false)
                           (seq 0 100));
                 log := [] |}
              _ _ 100
              eq_refl eq_refl eq_refl eq_refl)
    as (b & history & Hb & Hh & Hn & _ & _ & _ & _ & Hfull).
  exists history.
  injection Hb as <-.
  split; [exact Hh|]. split; [exact Hn|].
  apply Hfull. reflexivity.
Defined.

(** C4. In a pipeline run that returned a result, with [matches] the answer
    of the vector index: every match has its entry in [sources], at the same
    rank and with its id and score, whatever the score; a match whose score
    is at most 0.7 can be removed from the list without changing the context
    blob; and that blob is the one in the only prompt the run may send and
    the one [context_used] reports on. *)
Theorem low_scores_in_sources_not_in_context {rt : Runtime} {sv : Services}
    (question : jsstring) (topK : Q) (w w' : World) (r : PipelineResult) :
  processWithRAG question topK w = (Returns r, w') ->
  exists vector matches new,
    log w' = new ++ log w
    /\ In (EvQuery vector topK (Returns matches)) new
    /\ res_sources r = map source_of matches
    /\ map src_id (res_sources r) = map m_id matches
    /\ map src_score (res_sources r) = map m_score matches
    /\ (forall m, In m matches ->
          exists entry,
            In entry (res_sources r)
            /\ src_id entry = m_id m /\ src_score entry = m_score m)
    /\ (forall pre m post,
          matches = pre ++ m :: post ->
          (m_score m <= threshold)%Q ->
          context_of matches = context_of (pre ++ post))
    /\ (forall req o, In (EvFetch req o) new ->
          req = rag_request (context_of matches) question)
    /\ res_context_used r = (0 <? length (context_of matches)).
Proof.
  intros H.
  destruct (processWithRAG_returns _ _ _ H)
    as (emb & vector & rest & matches & new & _ & _ & _ & Hlog & _ & Hin
        & Hfetch & _ & _ & Hs & Hc & _).
  exists vector, matches, new.
  split; [exact Hlog|]. split; [exact Hin|]. split; [exact Hs|].
  rewrite Hs. split; [|split; [|split; [|split; [|split]]]].
  - rewrite map_map. reflexivity.
  - rewrite map_map. reflexivity.
  - intros m Hm. exists (source_of m). split; [|split; reflexivity].
    now apply in_map.
  - intros pre m post -> Hlow. now apply context_of_drop.
  - intros req o Hreq. now apply (Hfetch req o).
  - exact Hc.
Qed.

Lemma low_scores_in_sources_not_in_context_witness :
  exists vector matches new,
    log (snd (processWithRAG (rt := Sample.runtime) (sv := Sample.weak_match)
                (lit "hola") 3 Sample.empty_world)) = new ++ []
    /\ In (EvQuery vector 3 (Returns matches)) new
    /\ map src_id (res_sources Sample.weak_result) = map m_id matches
    /\ map src_score (res_sources Sample.weak_result) = map m_score matches.
Proof.
  destruct (@low_scores_in_sources_not_in_context
              Sample.runtime Sample.weak_match
              (lit "hola") 3 Sample.empty_world _ Sample.weak_result
              eq_refl)
    as (vector & matches & new & Hlog & Hin & _ & Hid & Hscore & _).
  exists vector, matches, new.
  split; [exact Hlog|]. split; [exact Hin|]. split; [exact Hid|exact Hscore].
Defined.

(** C5. When the embedding and the query succeed and the context assembled
    from the matches is empty, the pipeline returns the fixed message with
    [context_used] false, and the only calls it made are the embedding and
    the query: the completion endpoint is not called. The context is empty
    in particular when no match is above the threshold. *)
Theorem empty_context_skips_completion {rt : Runtime} {sv : Services}
    (question : jsstring) (topK : Q) (w : World)
    (queryVector : EmbeddingResponse) (vector : list Q)
    (rest : list (list Q)) (matches : list VMatch) :
  AI_run (log w) embedding_model question = Returns queryVector ->
  data queryVector = Some (vector :: rest) ->
  VECTORIZE_query
    (EvEmbed embedding_model question (Returns queryVector) :: log w)
    vector topK = Returns matches ->
  context_of matches = [] ->
  processWithRAG question topK w =
  (Returns {| res_question := question;
              res_answer := no_information;
              res_usedRAG := true;
              res_sources := map source_of matches;
              res_context_used := false |},
   {| chat_history := chat_history w;
      log := EvQuery vector topK (Returns matches)
               :: EvEmbed embedding_model question (Returns queryVector)
               :: log w |})
  /\ forallb is_fetch
       [ EvQuery vector topK (Returns matches);
         EvEmbed embedding_model question (Returns queryVector) ] = false
  /\ ((forall m, In m matches -> (m_score m <= threshold)%Q) ->
      context_of matches = []).
Proof.
  intros Ha Hd Hq Hc. split; [|split; [reflexivity|]].
  - rewrite processWithRAG_run. cbv zeta. rewrite Ha, Hd. simpl log.
    rewrite Hq, Hc. reflexivity.
  - apply context_of_all_below.
Qed.

Lemma empty_context_skips_completion_witness :
  fst (processWithRAG (rt := Sample.runtime) (sv := Sample.weak_match)
         (lit "hola") 3 Sample.empty_world)
  = Returns Sample.weak_result.
Proof.
  rewrite (proj1 (@empty_context_skips_completion
                    Sample.runtime Sample.weak_match
                    (lit "hola") 3 Sample.empty_world
                    {| data := Some [[1; 0]%Q] |} [1; 0]%Q []
                    [Sample.doc "doc-1-0" (1 # 2) (lit "hola mundo")]
                    eq_refl eq_refl eq_refl eq_refl)).
  reflexivity.
Defined.

(** C6. Whenever a run of the classifier makes the forced-choice call and
    that call fails, the classifier returns, and returns RAG exactly when the
    lower-cased question is longer than 20. *)
Theorem classifier_falls_back_on_length {rt : Runtime} {sv : Services}
    (question : jsstring) (w : World) (new : list Event)
    (req : CompletionRequest) (o : Outcome HttpResponse) :
  log (snd (shouldUseRAG question w)) = new ++ log w ->
  In (EvFetch req o) new ->
  call_failed o = true ->
  fst (shouldUseRAG question w)
  = Returns (20 <? length (toLowerCase question)).
Proof.
  intros Hlog Hin Hfail.
  destruct (has_keyword ragKeywords question) eqn:Hr.
  { rewrite shouldUseRAG_rag_keyword in Hlog by exact Hr. simpl in Hlog.
    assert (new = []) as ->.
    { apply (app_inv_tail (log w)). symmetry. exact Hlog. }
    destruct Hin. }
  destruct (has_keyword generalKeywords question) eqn:Hg.
  { rewrite shouldUseRAG_general_keyword in Hlog by assumption.
    simpl in Hlog.
    assert (new = []) as ->.
    { apply (app_inv_tail (log w)). symmetry. exact Hlog. }
    destruct Hin. }
  pose proof (shouldUseRAG_ambiguous question w Hr Hg) as H.
  cbv zeta in H. destruct H as (Hthrow & Hbad & Hgood).
  destruct (global_fetch (log w) (decision_request question))
    as [response|e] eqn:Ho.
  - destruct (call_failed (Returns response)) eqn:Hcf.
    + destruct (Hbad response eq_refl eq_refl) as [e He].
      rewrite He. reflexivity.
    + simpl in Hcf. apply orb_false_iff in Hcf as [Hok Hj].
      apply negb_false_iff in Hok.
      destruct (http_json response) as [a|] eqn:Ea; [|discriminate].
      rewrite (Hgood response a eq_refl Hok Ea) in Hlog.
      simpl in Hlog.
      assert (new = [EvFetch (decision_request question) (Returns response)])
        as ->.
      { apply (app_inv_tail (log w)). symmetry. exact Hlog. }
      destruct Hin as [Hin|[]]. injection Hin as _ <-.
      simpl in Hfail. rewrite Hok, Ea in Hfail. discriminate.
  - rewrite (Hthrow e eq_refl). reflexivity.
Qed.

Lemma classifier_falls_back_on_length_witness :
  fst (shouldUseRAG (rt := Sample.runtime) (sv := Sample.offline)
         (lit "Dime algo muy pero muy largo") Sample.empty_world)
  = Returns true.
Proof.
  exact (@classifier_falls_back_on_length Sample.runtime Sample.offline
           (lit "Dime algo muy pero muy largo") Sample.empty_world
           [ EvConsoleError (lit "Error in shouldUseRAG:") Sample.unreachable;
             EvFetch (decision_request (lit "Dime algo muy pero muy largo"))
               (Throws Sample.unreachable) ]
           (decision_request (lit "Dime algo muy pero muy largo"))
           (Throws Sample.unreachable)
           eq_refl (or_intror (or_introl eq_refl)) eq_refl).
Defined.

(** C7. A question that contains a RAG keyword once both are lower-cased is
    classified RAG, without any call, whatever else it contains. *)
Theorem rag_keyword_wins {rt : Runtime} {sv : Services}
    (question keyword : jsstring) (w : World) :
  In keyword ragKeywords ->
  includes (toLowerCase question) (toLowerCase keyword) = true ->
  shouldUseRAG question w = (Returns true, w).
Proof.
  intros Hin Hinc. apply shouldUseRAG_rag_keyword.
  apply has_keyword_iff. now exists keyword.
Qed.

Lemma rag_keyword_wins_witness :
  shouldUseRAG (rt := Sample.runtime) (sv := Sample.offline)
    (lit "Hola, ¿qué es esto? CONSULTAR el Documento") Sample.empty_world
  = (Returns true, Sample.empty_world)
  /\ has_keyword (rt := Sample.runtime) generalKeywords
       (lit "Hola, ¿qué es esto? CONSULTAR el Documento") = true.
Proof.
  split; [|reflexivity].
  apply (@rag_keyword_wins Sample.runtime Sample.offline
           (lit "Hola, ¿qué es esto? CONSULTAR el Documento")
           (lit "document") Sample.empty_world).
  - left. reflexivity.
  - reflexivity.
Defined.

(** C8, as the code has it. A POST to [/chat] whose body has [forceRAG: true]
    and a non-empty question runs the RAG pipeline on that question first
    (the embedding call opens the new part of the log) and never calls the
    classifier. When the pipeline returns a result, the response is that
    result, with [usedRAG] true, under status 200 with [agentDecision]
    "RAG"; when the pipeline throws, the response is the 500 error object
    carrying the message. *)
Theorem forced_chat_runs_pipeline {rt : Runtime} {sv : Services}
    {lr : LaterRoutes} (request : Request) (b : JsonBody)
    (question : jsstring) (w : World) :
  pathname request = lit "/chat" ->
  method request = lit "POST" ->
  req_json request = Returns b ->
  b_question b = Some question ->
  question <> [] ->
  b_forceRAG b = Some true ->
  exists response w' later,
    fetch request w = (Returns response, w')
    /\ log w' =
       (later ++ [EvEmbed embedding_model question
                    (AI_run (log w) embedding_model question)]) ++ log w
    /\ forallb (fun e => negb (is_classifier_call e)) later = true
    /\ match
         fst (processWithRAG question
                (match b_topK b with Some k => k | None => 3%Q end) w)
       with
       | Returns result =>
           res_usedRAG result = true
           /\ exists timestamp,
               response
               = Response_json 200 (PChat result (lit "RAG") timestamp)
       | Throws e =>
           response
           = Response_json 500
               (PError (lit "Failed to process chat request")
                  (Some (message_of e)))
       end.
Proof.
  intros Hp Hm Hb Hq Hne Hf.
  rewrite (fetch_chat _ _ Hp Hm), (chat_forced _ _ Hb Hq Hne Hf).
  set (topK := match b_topK b with Some k => k | None => 3%Q end).
  destruct (processWithRAG_log question topK w) as (later1 & Hlog1 & Hq1).
  destruct (processWithRAG question topK w) as [[result|e] w1] eqn:Erun;
    simpl in Hlog1.
  - destruct (save_interaction_run result w1) as (w2 & new & Hs & Hlog2 & Hq2).
    cbv zeta. rewrite Hs. simpl snd.
    eexists _, _, (EvDate _ :: new ++ later1).
    split; [reflexivity|]. split; [|split].
    + simpl. rewrite Hlog2, Hlog1. rewrite <- !app_assoc. reflexivity.
    + simpl. rewrite forallb_app. fold quiet. rewrite Hq1, Hq2. reflexivity.
    + simpl. split; [|eexists; reflexivity].
      destruct (processWithRAG_returns _ _ _ Erun)
        as (? & ? & ? & ? & ? & _ & _ & _ & _ & _ & _ & _ & _ & Hu & _).
      exact Hu.
  - eexists _, _, (EvConsoleError _ _ :: later1).
    split; [reflexivity|]. split; [|split].
    + simpl. rewrite Hlog1. reflexivity.
    + simpl. exact Hq1.
    + reflexivity.
Qed.

Lemma forced_chat_runs_pipeline_witness :
  exists response,
    fst (fetch (rt := Sample.runtime) (sv := Sample.weak_match)
           (lr := Sample.discovery)
           {| pathname := lit "/chat"; method := lit "POST";
              req_json :=
                Returns {| b_question := Some (lit "hola");
                           b_topK := None; b_forceRAG := Some true;
                           b_answer := None; b_usedRAG := None;
                           b_timestamp := None |} |}
           Sample.empty_world) = Returns response
    /\ exists result timestamp,
        response = Response_json 200 (PChat result (lit "RAG") timestamp)
        /\ res_usedRAG result = true.
Proof.
  destruct (@forced_chat_runs_pipeline
              Sample.runtime Sample.weak_match Sample.discovery
              {| pathname := lit "/chat"; method := lit "POST";
                 req_json :=
                   Returns {| b_question := Some (lit "hola");
                              b_topK := None; b_forceRAG := Some true;
                              b_answer := None; b_usedRAG := None;
                              b_timestamp := None |} |}
              _ (lit "hola") Sample.empty_world
              eq_refl eq_refl eq_refl eq_refl
              (fun H => match H in _ = l return
                                match l with [] => False | _ => True end
                        with eq_refl => I end)
              eq_refl)
    as (response & w' & later & Hrun & _ & _ & Hres).
  exists response. split; [rewrite Hrun; reflexivity|].
  destruct Hres as (Hu & timestamp & Hresp).
  eexists _, timestamp. split; [exact Hresp|exact Hu].
Defined.

(** C8 as stated fails: with [forceRAG: true] and a question, but the
    embedding provider down, the response is the 500 error object, which
    reports neither [usedRAG] nor [agentDecision]. *)
Lemma forced_chat_can_answer_500 :
  fst (fetch (rt := Sample.runtime) (sv := Sample.offline)
         (lr := Sample.discovery)
         {| pathname := lit "/chat"; method := lit "POST";
            req_json :=
              Returns {| b_question := Some (lit "hola");
                         b_topK := None; b_forceRAG := Some true;
                         b_answer := None; b_usedRAG := None;
                         b_timestamp := None |} |}
         Sample.empty_world)
  = Returns
      {| status := 500;
         headers := corsHeaders;
         body :=
           BJson (PError (lit "Failed to process chat request")
                    (Some (lit "RAG processing failed: fetch failed"))) |}.
Proof. reflexivity. Qed.

(** C9. On an empty history (nothing stored, or an empty list) that the
    storage hands over, [/stats] answers 200 with all four numbers 0; and for
    every history the rounding of the ratio is evaluated only when the total
    is not 0: two engines that agree on every non-zero denominator give the
    same statistics. *)
Theorem stats_of_empty_history {rt : Runtime} {sv : Services}
    (request : Request) (w : World) :
  pathname request = lit "/stats" ->
  method request = lit "GET" ->
  storage_get_failure (log w) = None ->
  stored_history w = [] ->
  fst (MyAgent_fetch request w)
  = Returns (Response_json 200
               (PStats {| totalInteractions := 0; ragUsage := 0;
                          generalUsage := 0; ragPercentage := 0 |}))
  /\ forall (rt' : Runtime) (history : list InteractionRecord),
      (forall a n, n <> 0 ->
         @round_percent rt' a n = @round_percent rt a n) ->
      @stats_of rt' history = @stats_of rt history.
Proof.
  intros Hp Hm Hg He. split.
  - rewrite (stats_run _ _ Hp Hm). cbv zeta. rewrite Hg, He. reflexivity.
  - intros rt' history Hagree. unfold stats_of.
    destruct history as [|r history]; [reflexivity|].
    cbn [length Nat.ltb Nat.leb]. now rewrite Hagree.
Qed.

Lemma stats_of_empty_history_witness :
  fst (MyAgent_fetch (rt := Sample.runtime) (sv := Sample.offline)
         {| pathname := lit "/stats"; method := lit "GET";
            req_json := Sample.no_body |}
         Sample.empty_world)
  = Returns (Response_json 200
               (PStats {| totalInteractions := 0; ragUsage := 0;
                          generalUsage := 0; ragPercentage := 0 |})).
Proof.
  exact (proj1 (@stats_of_empty_history Sample.runtime Sample.offline
                  {| pathname := lit "/stats"; method := lit "GET";
                     req_json := Sample.no_body |}
                  Sample.empty_world eq_refl eq_refl eq_refl eq_refl)).
Defined.

(** C10. The statistics any request to the durable object answers with are
    those of the stored history, and in them every record is counted once:
    under [ragUsage] when its [usedRAG] is truthy, under [generalUsage] when
    it is not, so that the two add up to [totalInteractions]. *)
Theorem stats_counts_add_up {rt : Runtime} {sv : Services}
    (request : Request) (w w' : World) (response : Response) (s : Stats) :
  MyAgent_fetch request w = (Returns response, w') ->
  body response = BJson (PStats s) ->
  ragUsage s + generalUsage s = totalInteractions s
  /\ totalInteractions s = length (stored_history w)
  /\ ragUsage s
     = length (filter (fun item => flag_truthy (rec_usedRAG item))
                 (stored_history w))
  /\ generalUsage s
     = length (filter (fun item => negb (flag_truthy (rec_usedRAG item)))
                 (stored_history w)).
Proof.
  intros Hrun Hbody.
  rewrite (stats_only_from_history _ _ Hrun Hbody).
  unfold stats_of. cbn [ragUsage generalUsage totalInteractions].
  split; [apply filter_split_length|]. repeat split.
Qed.

Lemma stats_counts_add_up_witness :
  ragUsage
    (stats_of (rt := Sample.runtime)
       [ Sample.interaction 0 true; Sample.interaction 1 false;
         Sample.interaction 2 true ])
  + generalUsage
      (stats_of (rt := Sample.runtime)
         [ Sample.interaction 0 true; Sample.interaction 1 false;
           Sample.interaction 2 true ])
  = totalInteractions
      (stats_of (rt := Sample.runtime)
         [ Sample.interaction 0 true; Sample.interaction 1 false;
           Sample.interaction 2 true ]).
Proof.
  exact (proj1 (@stats_counts_add_up Sample.runtime Sample.offline
                  {| pathname := lit "/stats"; method := lit "GET";
                     req_json := Sample.no_body |}
                  {| chat_history :=
                       Some [ Sample.interaction 0 true;
                              Sample.interaction 1 false;
                              Sample.interaction 2 true ];
                     log := [] |}
                  _ _ _ eq_refl eq_refl)).
Defined.

(** * Further properties of the code *)

(** ** The durable object *)

Lemma slice_last_all {A} (n : nat) (xs : list A) :
  length xs <= n -> slice_last n xs = xs.
Proof.
  intros H. unfold slice_last. destruct n; [reflexivity|].
  replace (length xs - S n) with 0 by lia. reflexivity.
Qed.

Lemma slice_last_skip {A} (n : nat) (pre xs : list A) :
  0 < n -> n <= length xs -> slice_last n (pre ++ xs) = slice_last n xs.
Proof.
  intros Hn H. unfold slice_last. destruct n; [lia|].
  rewrite length_app, skipn_app.
  replace (length pre + length xs - S n - length pre)
    with (length xs - S n) by lia.
  rewrite skipn_all2 by lia. reflexivity.
Qed.

(** Cutting twice is cutting once. *)
Lemma slice_last_again {A} (n : nat) (xs ys : list A) :
  0 < n -> slice_last n (slice_last n xs ++ ys) = slice_last n (xs ++ ys).
Proof.
  intros Hn. destruct (Nat.le_gt_cases (length xs) n) as [H|H].
  - rewrite (@slice_last_all A n xs) by exact H. reflexivity.
  - assert (E : slice_last n xs = skipn (length xs - n) xs).
    { unfold slice_last. destruct n; [lia|reflexivity]. }
    rewrite <- (firstn_skipn (length xs - n) xs) at 2.
    rewrite <- app_assoc, E.
    symmetry. apply slice_last_skip; [exact Hn|].
    rewrite length_app, length_skipn. lia.
Qed.

Lemma push_trim_fold (history : list InteractionRecord)
    (rs : list InteractionRecord) :
  rs <> [] ->
  fold_left push_trim rs history = slice_last 100 (history ++ rs).
Proof.
  revert history. induction rs as [|r rs IH]; intros history Hne;
    [congruence|].
  simpl. destruct rs as [|r' rs].
  - simpl. apply push_trim_slice.
  - rewrite IH by discriminate. rewrite push_trim_slice.
    rewrite slice_last_again by lia.
    now rewrite <- app_assoc.
Qed.

Lemma throws_pair {A} (a b : Thrown) (w1 w2 : World) :
  (@Throws A a, w1) = (Throws b, w2) -> a = b /\ w1 = w2.
Proof. intros H. injection H as -> ->. split; reflexivity. Qed.

Lemma returns_pair {A} (a b : A) (w1 w2 : World) :
  (Returns a, w1) = (Returns b, w2) -> a = b /\ w1 = w2.
Proof. intros H. injection H as -> ->. split; reflexivity. Qed.

Lemma str_eqb_no (a b : jsstring) : a <> b -> str_eqb a b = false.
Proof.
  intros H. destruct (str_eqb a b) eqn:E; [|reflexivity].
  apply str_eqb_eq in E. contradiction.
Qed.

Section Store.
Context {rt : Runtime} {sv : Services}.

(** The [/history] route, step by step. *)
Lemma history_run (request : Request) (w : World) :
  pathname request = lit "/history" ->
  method request = lit "GET" ->
  MyAgent_fetch request w =
  let w1 := record (EvStorageGet (storage_get_failure (log w))) w in
  match storage_get_failure (log w) with
  | Some e =>
      (Returns (failure_response (lit "Failed to retrieve history") e), w1)
  | None => (Returns (Response_json 200 (PHistory (stored_history w))), w1)
  end.
Proof.
  intros Hp Hm. unfold MyAgent_fetch. rewrite Hp, Hm.
  rewrite (@str_eqb_no (lit "GET") (lit "OPTIONS"))
    by (vm_compute; discriminate).
  rewrite !str_eqb_refl. cbn [andb].
  unfold try_catch, bind, storage_get, ret. cbv zeta.
  destruct (storage_get_failure (log w)) as [e|]; reflexivity.
Qed.

(** X1. Every request to the durable object is answered: no route lets an
    exception out, every answer carries the CORS headers, and its status is
    200, 404 or 500. *)
Theorem durable_object_always_answers (request : Request) (w : World) :
  exists response w',
    MyAgent_fetch request w = (Returns response, w')
    /\ headers response = corsHeaders
    /\ (status response = 200 \/ status response = 404
        \/ status response = 500)%Z.
Proof.
  unfold MyAgent_fetch, try_catch, bind, await, storage_get, storage_put, ret.
  cbv zeta.
  repeat match goal with
         | |- context [if ?c then _ else _] => destruct c
         | |- context [match ?o with Some _ => _ | None => _ end] =>
             destruct o
         | |- context [match ?o with Returns _ => _ | Throws _ => _ end] =>
             destruct o
         end;
    eexists _, _; (split; [reflexivity|]); (split; [reflexivity|]);
    simpl; auto.
Qed.

(** X2. The stored history changes only through a save that answers with the
    success object: every other answer, the failed saves included, leaves
    it as it was. *)
Theorem only_completed_save_changes_history (request : Request)
    (w w' : World) (response : Response) :
  MyAgent_fetch request w = (Returns response, w') ->
  (forall n, body response <> BJson (PSaved n)) ->
  chat_history w' = chat_history w.
Proof.
  unfold MyAgent_fetch, try_catch, bind, await, storage_get, storage_put, ret.
  cbv zeta.
  repeat match goal with
         | |- context [if ?c then _ else _] => destruct c
         | |- context [storage_get_failure ?l] =>
             destruct (storage_get_failure l)
         | |- context [storage_put_failure ?l] =>
             destruct (storage_put_failure l)
         | |- context [match ?o with Returns _ => _ | Throws _ => _ end] =>
             destruct o
         end;
    intros H Hb; injection H as <- <-; try reflexivity;
    exfalso; eapply Hb; reflexivity.
Qed.

(** X3. A save whose body cannot be read is answered 500 with the message of the
    failure, before the storage is read: the world is left as it was. *)
Theorem unreadable_save_body_touches_nothing (request : Request)
    (w : World) (e : Thrown) :
  pathname request = lit "/save" ->
  method request = lit "POST" ->
  req_json request = Throws e ->
  MyAgent_fetch request w =
  (Returns (Response_json 500
              (PError (lit "Failed to save to history")
                 (Some (message_of e)))), w).
Proof.
  intros Hp Hm Hb. rewrite (save_run _ _ Hp Hm), Hb. reflexivity.
Qed.

(** X4. What a completed save stored is what [/history] hands out next: a list
    of the reported length whose last record is the one just saved. *)
Theorem saved_record_is_last_in_history (request : Request) (b : JsonBody)
    (w w1 : World) (response : Response) (n : nat) :
  pathname request = lit "/save" ->
  method request = lit "POST" ->
  req_json request = Returns b ->
  MyAgent_fetch request w = (Returns response, w1) ->
  body response = BJson (PSaved n) ->
  storage_get_failure (log w1) = None ->
  exists kept,
    fst (MyAgent_fetch (stub_get (lit "/history")) w1)
    = Returns (Response_json 200 (PHistory (kept ++ [record_of b])))
    /\ length (kept ++ [record_of b]) = n
    /\ n <= 100.
Proof.
  intros Hp Hm Hb Hrun Hbody Hget.
  rewrite (save_run _ _ Hp Hm), Hb in Hrun. cbv zeta in Hrun.
  destruct (storage_get_failure (log w)) as [e|].
  1:{ injection Hrun as <- _. discriminate. }
  destruct (storage_put_failure _) as [e|].
  1:{ injection Hrun as <- _. discriminate. }
  injection Hrun as <- <-. simpl in Hbody. injection Hbody as <-.
  rewrite history_run by reflexivity. cbv zeta.
  rewrite Hget. unfold stored_history at 1. simpl chat_history.
  assert (Hlast : exists kept,
             push_trim (stored_history w) (record_of b)
             = kept ++ [record_of b]).
  { rewrite push_trim_slice. unfold slice_last.
    rewrite length_app. simpl length. rewrite skipn_app.
    destruct (Nat.le_gt_cases (length (stored_history w)) 99) as [Hl|Hl].
    - replace (length (stored_history w) + 1 - 100) with 0 by lia.
      simpl. eexists. reflexivity.
    - replace (length (stored_history w) + 1 - 100
               - length (stored_history w)) with 0 by lia.
      simpl. eexists. reflexivity. }
  destruct Hlast as [kept Hk]. exists kept.
  rewrite <- Hk. split; [reflexivity|]. split; [reflexivity|].
  apply push_trim_length.
Qed.

(** X5. With a storage that never fails, any non-empty run of saves leaves in
    the store the last 100 of the records it held followed by the records
    saved, in the order they were saved. *)
Theorem saves_keep_last_hundred (bodies : list JsonBody) (w : World) :
  store_reliable ->
  bodies <> [] ->
  fst (save_all bodies w) = Returns tt
  /\ chat_history (snd (save_all bodies w))
     = Some (slice_last 100 (stored_history w ++ map record_of bodies)).
Proof.
  intros Hrel Hne.
  assert (Hstep : forall bs w0,
             fst (save_all bs w0) = Returns tt
             /\ (bs <> [] ->
                 chat_history (snd (save_all bs w0))
                 = Some (fold_left push_trim (map record_of bs)
                           (stored_history w0)))).
  { induction bs as [|b0 bs IH]; intros w0.
    - split; [reflexivity|congruence].
    - destruct (Hrel (log w0)) as (Hg & _ & _).
      destruct (Hrel (EvStorageGet None :: log w0)) as (_ & Hput & _).
      assert (Hcons :
               save_all (b0 :: bs) w0
               = save_all bs
                   {| chat_history :=
                        Some (push_trim (stored_history w0) (record_of b0));
                      log := EvStoragePut None
                               :: EvStorageGet None :: log w0 |}).
      { simpl save_all. unfold bind.
        rewrite save_run by reflexivity. simpl req_json. cbv zeta.
        rewrite Hg. simpl log. rewrite Hput. reflexivity. }
      rewrite Hcons.
      match goal with
      | |- context [save_all bs ?w1] =>
          destruct (IH w1) as [Hfst Hsnd]
      end.
      split; [exact Hfst|]. intros _.
      destruct bs as [|b1 bs]; [reflexivity|].
      rewrite Hsnd by discriminate. reflexivity. }
  destruct (Hstep bodies w) as [Hfst Hsnd].
  split; [exact Hfst|].
  rewrite Hsnd by exact Hne. f_equal. apply push_trim_fold.
  destruct bodies; [congruence|discriminate].
Qed.

End Store.

(** ** The classifier and the two pipelines *)

Section Pipelines.
Context {rt : Runtime} {sv : Services}.

Lemma has_keyword_none (keywords : list jsstring) (question : jsstring) :
  (forall keyword, In keyword keywords ->
     includes (toLowerCase question) (toLowerCase keyword) = false) ->
  has_keyword keywords question = false.
Proof.
  intros H. destruct (has_keyword keywords question) eqn:E; [|reflexivity].
  apply has_keyword_iff in E. destruct E as (keyword & Hin & Hinc).
  rewrite (H keyword Hin) in Hinc. discriminate.
Qed.

(** Reading a reply: the check of [ok], then the parse. *)
Lemma read_reply_run {A} (response : HttpResponse)
    (f : AzureOpenAIResponse -> A) (w : World) :
  (check_ok response ;;
   chatResponse <- await (http_json response) ;;
   ret (f chatResponse)) w
  = (match reply_of response with
     | Returns a => Returns (f a)
     | Throws e => Throws e
     end, w).
Proof.
  unfold check_ok, reply_of, bind, await, throw, ret.
  destruct (ok response); simpl.
  - destruct (http_json response); reflexivity.
  - destruct (http_text response); reflexivity.
Qed.

Lemma call_failed_reply (response : HttpResponse) :
  call_failed (Returns response) = true <->
  exists e, reply_of response = Throws e.
Proof.
  unfold call_failed, reply_of. destruct (ok response); simpl.
  - destruct (http_json response) as [a|e]; split.
    + discriminate.
    + intros [e H]. discriminate.
    + intros _. now exists e.
    + reflexivity.
  - split; [intros _|reflexivity].
    destruct (http_text response); eexists; reflexivity.
Qed.

Lemma or_else_not_empty (a : option jsstring) (d : jsstring) :
  d <> [] -> or_else a d <> [].
Proof.
  intros Hd. destruct a as [[|c s]|]; simpl; try exact Hd. discriminate.
Qed.

(** The general pipeline, step by step. *)
Lemma processGeneral_run (question : jsstring) (w : World) :
  processGeneral question w =
  let req := general_request question in
  let o := global_fetch (log w) req in
  let w1 := record (EvFetch req o) w in
  match o with
  | Throws e => general_failure e w1
  | Returns response =>
      match reply_of response with
      | Throws e => general_failure e w1
      | Returns a =>
          (Returns {| res_question := question;
                      res_answer := or_else (first_content a) no_answer;
                      res_usedRAG := false;
                      res_sources := [];
                      res_context_used := false |}, w1)
      end
  end.
Proof.
  unfold processGeneral, general_failure, try_catch. cbv zeta.
  unfold bind at 1. unfold fetch_completion at 1. cbv zeta.
  destruct (global_fetch (log w) (general_request question))
    as [response|e]; [|reflexivity].
  rewrite (read_reply_run response
             (fun chatResponse =>
                {| res_question := question;
                   res_answer := or_else (first_content chatResponse)
                                   no_answer;
                   res_usedRAG := false;
                   res_sources := [];
                   res_context_used := false |})).
  destruct (reply_of response); reflexivity.
Qed.

(** X6. A question with a general keyword and no RAG keyword is classified
    GENERAL at once: no call is made and the world is left as it was. *)
Theorem general_keyword_means_general (question keyword : jsstring)
    (w : World) :
  In keyword generalKeywords ->
  includes (toLowerCase question) (toLowerCase keyword) = true ->
  (forall k, In k ragKeywords ->
     includes (toLowerCase question) (toLowerCase k) = false) ->
  shouldUseRAG question w = (Returns false, w).
Proof.
  intros Hin Hinc Hno. apply shouldUseRAG_general_keyword.
  - now apply has_keyword_none.
  - apply has_keyword_iff. now exists keyword.
Qed.


(** X8. A result of the general pipeline echoes the question, is marked as not
    using RAG, has no sources and a non-empty answer (the text of the reply,
    or the fixed fallback when the reply has none); the run made exactly one
    call, the completion request for the question, and stored nothing. *)
Theorem general_pipeline_result (question : jsstring) (w w' : World)
    (r : PipelineResult) :
  processGeneral question w = (Returns r, w') ->
  exists response a,
    w' = record (EvFetch (general_request question) (Returns response)) w
    /\ reply_of response = Returns a
    /\ r = {| res_question := question;
              res_answer := or_else (first_content a) no_answer;
              res_usedRAG := false;
              res_sources := [];
              res_context_used := false |}
    /\ res_answer r <> []
    /\ (first_content a = None -> res_answer r = no_answer).
Proof.
  rewrite processGeneral_run. cbv zeta. unfold general_failure.
  destruct (global_fetch (log w) (general_request question))
    as [response|e]; [|discriminate].
  destruct (reply_of response) as [a|e] eqn:Er; [|discriminate].
  intros H. injection H as <- <-.
  exists response, a. repeat split; try assumption.
  - simpl. now apply or_else_not_empty.
  - intros Hn. simpl. now rewrite Hn.
Qed.

(** X9. The general pipeline returns a result exactly when its completion call
    does not fail; when the call fails it throws an [Error] whose message is
    "General processing failed: " followed by the message of the cause, after
    logging the cause. *)
Theorem general_pipeline_fails_with_call (question : jsstring) (w : World) :
  let o := global_fetch (log w) (general_request question) in
  (call_failed o = false ->
   exists r, fst (processGeneral question w) = Returns r)
  /\ (call_failed o = true ->
      exists cause,
        processGeneral question w
        = (Throws (JsError (lit "General processing failed: "
                              ++ message_of cause)),
           record (EvConsoleError (lit "Error in processGeneral:") cause)
             (record (EvFetch (general_request question) o) w))).
Proof.
  cbv zeta. rewrite processGeneral_run. cbv zeta. unfold general_failure.
  destruct (global_fetch (log w) (general_request question))
    as [response|e].
  - destruct (reply_of response) as [a|e] eqn:Er; split; intros Hc.
    + eexists. reflexivity.
    + apply call_failed_reply in Hc. destruct Hc as [e He].
      rewrite Er in He. discriminate.
    + assert (Hf : call_failed (Returns response) = true)
        by (apply call_failed_reply; now exists e).
      rewrite Hf in Hc. discriminate.
    + exists e. reflexivity.
  - split; [discriminate|]. intros _. exists e. reflexivity.
Qed.

End Pipelines.

(** ** The RAG pipeline, further *)

Section Retrieval.
Context {rt : Runtime} {sv : Services}.

Lemma length_zero_iff_empty (s : jsstring) :
  (0 <? length s) = false <-> s = [].
Proof.
  destruct s; simpl; split; intros H; try reflexivity; discriminate.
Qed.

(** The two ways a pipeline run returns a result. *)
Lemma processWithRAG_result (question : jsstring) (topK : Q)
    (w w' : World) (r : PipelineResult) :
  processWithRAG question topK w = (Returns r, w') ->
  exists queryVector vector matches,
    let w2 :=
      record (EvQuery vector topK (Returns matches))
        (record (EvEmbed embedding_model question (Returns queryVector)) w)
    in
    (context_of matches = []
     /\ w' = w2
     /\ res_answer r = no_information
     /\ res_context_used r = false)
    \/ (context_of matches <> []
        /\ res_context_used r = true
        /\ exists response a,
            w' = record (EvFetch (rag_request (context_of matches) question)
                           (Returns response)) w2
            /\ reply_of response = Returns a
            /\ res_answer r = or_else (first_content a) no_answer).
Proof.
  rewrite processWithRAG_run. cbv zeta. unfold rag_failure.
  destruct (AI_run (log w) embedding_model question) as [emb|e];
    [|discriminate].
  destruct (data emb) as [[|vector vs]|]; try discriminate.
  destruct (VECTORIZE_query _ vector topK) as [matches|e]; [|discriminate].
  destruct (0 <? length (context_of matches)) eqn:Ec.
  - destruct (global_fetch _ _) as [response|e]; [|discriminate].
    rewrite (read_reply_run response
               (fun chatResponse =>
                  or_else (first_content chatResponse) no_answer)).
    destruct (reply_of response) as [a|e] eqn:Er; [|discriminate].
    intros H. injection H as <- <-.
    exists emb, vector, matches. right.
    split; [|split; [reflexivity|]].
    + intros Hc. rewrite Hc in Ec. discriminate.
    + exists response, a. repeat split. exact Er.
  - intros H. injection H as <- <-.
    exists emb, vector, matches. left.
    apply length_zero_iff_empty in Ec. repeat split. exact Ec.
Qed.

(** How a pipeline run ends when it throws. *)
Lemma processWithRAG_throws (question : jsstring) (topK : Q)
    (w w' : World) (e : Thrown) :
  processWithRAG question topK w = (Throws e, w') ->
  exists cause w1,
    e = JsError (lit "RAG processing failed: " ++ message_of cause)
    /\ w' = record (EvConsoleError (lit "Error in processWithRAG:") cause) w1.
Proof.
  rewrite processWithRAG_run. cbv zeta. unfold rag_failure.
  destruct (AI_run (log w) embedding_model question) as [emb|e0].
  2:{ intros H. apply throws_pair in H as [<- <-].
      exists e0. eexists. split; reflexivity. }
  destruct (data emb) as [[|vector vs]|].
  1,3: intros H; apply throws_pair in H as [<- <-];
       exists (JsError (lit "Failed to generate query embedding"));
       eexists; split; reflexivity.
  destruct (VECTORIZE_query _ vector topK) as [matches|e0].
  2:{ intros H. apply throws_pair in H as [<- <-].
      exists e0. eexists. split; reflexivity. }
  destruct (0 <? length (context_of matches)); [|discriminate].
  destruct (global_fetch _ _) as [response|e0].
  2:{ intros H. apply throws_pair in H as [<- <-].
      exists e0. eexists. split; reflexivity. }
  rewrite (read_reply_run response
             (fun chatResponse =>
                or_else (first_content chatResponse) no_answer)).
  destruct (reply_of response) as [a|e0]; [discriminate|].
  intros H. apply throws_pair in H as [<- <-].
  exists e0. eexists. split; reflexivity.
Qed.

(** X10. Whatever makes the RAG pipeline fail, what it throws is an [Error] whose
    message is "RAG processing failed: " followed by the message of the
    cause, and the cause is the last thing it logged. *)
Theorem rag_pipeline_errors_are_wrapped (question : jsstring) (topK : Q)
    (w w' : World) (e : Thrown) :
  processWithRAG question topK w = (Throws e, w') ->
  exists cause w1,
    e = JsError (lit "RAG processing failed: " ++ message_of cause)
    /\ w' = record (EvConsoleError (lit "Error in processWithRAG:") cause) w1.
Proof.
  apply processWithRAG_throws.
Qed.

(** X11. When the embedding model answers without a vector ([data] missing or
    empty), the pipeline fails with "Failed to generate query embedding" and
    the vector index is not queried. *)
Theorem no_embedding_no_query (question : jsstring) (topK : Q) (w : World)
    (queryVector : EmbeddingResponse) :
  AI_run (log w) embedding_model question = Returns queryVector ->
  data queryVector = None \/ data queryVector = Some [] ->
  processWithRAG question topK w =
  (Throws (JsError
             (lit "RAG processing failed: Failed to generate query embedding")),
   {| chat_history := chat_history w;
      log := EvConsoleError (lit "Error in processWithRAG:")
               (JsError (lit "Failed to generate query embedding"))
             :: EvEmbed embedding_model question (Returns queryVector)
             :: log w |}).
Proof.
  intros Ha Hd. rewrite processWithRAG_run. cbv zeta. rewrite Ha.
  assert (Hmsg : lit "RAG processing failed: "
                   ++ lit "Failed to generate query embedding"
                 = lit "RAG processing failed: Failed to generate query embedding")
    by (vm_compute; reflexivity).
  destruct Hd as [Hd|Hd]; rewrite Hd; unfold rag_failure;
    cbn [message_of]; rewrite Hmsg; reflexivity.
Qed.

(** X12. In a run that returned a result, the completion endpoint was called
    exactly when [context_used] is true, and then only once. *)
Theorem completion_called_iff_context (question : jsstring) (topK : Q)
    (w w' : World) (r : PipelineResult) (new : list Event) :
  processWithRAG question topK w = (Returns r, w') ->
  log w' = new ++ log w ->
  existsb is_fetch new = res_context_used r
  /\ length (filter is_fetch new) = (if res_context_used r then 1 else 0).
Proof.
  intros H Hlog.
  destruct (processWithRAG_result _ _ _ H)
    as (emb & vector & matches & Hcase). cbv zeta in Hcase.
  destruct Hcase as [(_ & -> & _ & Hu)|(_ & Hu & response & a & -> & _ & _)];
    rewrite Hu.
  - assert (new = [EvQuery vector topK (Returns matches);
                   EvEmbed embedding_model question (Returns emb)]) as ->.
    { apply (app_inv_tail (log w)). symmetry. exact Hlog. }
    split; reflexivity.
  - assert (new = [EvFetch (rag_request (context_of matches) question)
                     (Returns response);
                   EvQuery vector topK (Returns matches);
                   EvEmbed embedding_model question (Returns emb)]) as ->.
    { apply (app_inv_tail (log w)). symmetry. exact Hlog. }
    split; reflexivity.
Qed.

(** X13. The answer of a returned RAG result is never empty: it is the fixed "no
    information" message when the context was not used, and otherwise the
    text of the reply to the completion call the run ended with, or the
    fixed "no answer" message when that reply has no text. *)
Theorem rag_answer_never_empty (question : jsstring) (topK : Q)
    (w w' : World) (r : PipelineResult) :
  processWithRAG question topK w = (Returns r, w') ->
  res_answer r <> []
  /\ (res_context_used r = false -> res_answer r = no_information)
  /\ (res_context_used r = true ->
      exists req response a,
        hd_error (log w') = Some (EvFetch req (Returns response))
        /\ reply_of response = Returns a
        /\ res_answer r = or_else (first_content a) no_answer).
Proof.
  intros H.
  destruct (processWithRAG_result _ _ _ H)
    as (emb & vector & matches & Hcase). cbv zeta in Hcase.
  destruct Hcase
    as [(_ & -> & Ha & Hu)|(_ & Hu & response & a & -> & Hr & Ha)];
    rewrite Ha, Hu.
  - split; [discriminate|]. split; [reflexivity|discriminate].
  - split; [apply or_else_not_empty; discriminate|].
    split; [discriminate|]. intros _.
    exists (rag_request (context_of matches) question), response, a.
    split; [reflexivity|]. split; [exact Hr|reflexivity].
Qed.

(** X14. When the context is not empty and the completion call fails, the
    pipeline throws: the matches found are not returned without an answer. *)
Theorem failed_completion_fails_rag (question : jsstring) (topK : Q)
    (w : World) (queryVector : EmbeddingResponse) (vector : list Q)
    (rest : list (list Q)) (matches : list VMatch) :
  AI_run (log w) embedding_model question = Returns queryVector ->
  data queryVector = Some (vector :: rest) ->
  VECTORIZE_query
    (EvEmbed embedding_model question (Returns queryVector) :: log w)
    vector topK = Returns matches ->
  context_of matches <> [] ->
  call_failed
    (global_fetch
       (EvQuery vector topK (Returns matches)
          :: EvEmbed embedding_model question (Returns queryVector) :: log w)
       (rag_request (context_of matches) question)) = true ->
  exists cause,
    fst (processWithRAG question topK w)
    = Throws (JsError (lit "RAG processing failed: " ++ message_of cause)).
Proof.
  intros Ha Hd Hq Hc Hf. rewrite processWithRAG_run. cbv zeta.
  rewrite Ha, Hd. simpl log. rewrite Hq.
  destruct (0 <? length (context_of matches)) eqn:Ec.
  2:{ apply length_zero_iff_empty in Ec. contradiction. }
  simpl log.
  destruct (global_fetch _ _) as [response|e].
  - rewrite (read_reply_run response
               (fun chatResponse =>
                  or_else (first_content chatResponse) no_answer)).
    apply call_failed_reply in Hf. destruct Hf as [e He]. rewrite He.
    exists e. reflexivity.
  - exists e. reflexivity.
Qed.

(** X15. A match whose [content] is missing or falsy (no metadata, no such
    field, an empty string, zero, false) adds nothing to the context,
    whatever its score. *)
Theorem falsy_content_not_in_context (pre post : list VMatch) (m : VMatch) :
  truthy_opt (metadata_field (lit "content") m) = false ->
  context_of (pre ++ m :: post) = context_of (pre ++ post).
Proof.
  intros H. unfold context_of.
  rewrite !filter_app, !map_app, !filter_app. simpl.
  destruct (above_threshold m); [|reflexivity].
  simpl. rewrite H. reflexivity.
Qed.

End Retrieval.

(** X16. A content preview of [sources] is at most 203 code units long and ends
    with the three dots. *)
Theorem preview_length_bound (m : VMatch) (preview : jsstring) :
  src_content (source_of m) = Some preview ->
  length preview <= 203
  /\ exists head, preview = head ++ lit "..." /\ length head <= 200.
Proof.
  unfold source_of. cbn [src_content].
  destruct (metadata_field (lit "content") m) as [[s| | | |]|];
    try discriminate.
  intros H.
  assert (E0 : preview = substring0 200 s ++ lit "...") by congruence.
  subst preview. clear H.
  assert (Hl : length (substring0 200 s) <= 200).
  { unfold substring0. rewrite length_firstn. lia. }
  split.
  - rewrite length_app.
    assert (E : length (lit "...") = 3) by reflexivity.
    rewrite E. lia.
  - exists (substring0 200 s). split; [reflexivity|exact Hl].
Qed.

(** ** The chat route *)

Section Chat.
Context {rt : Runtime} {sv : Services} {lr : LaterRoutes}.

(** The classifier step of the chat handler never throws. *)
Lemma decide_total (force : bool) (question : jsstring) (w : World) :
  exists shouldUse w1,
    (if force then ret true else shouldUseRAG question) w
    = (Returns shouldUse, w1)
    /\ chat_history w1 = chat_history w.
Proof.
  destruct force.
  - exists true, w. split; reflexivity.
  - destruct (shouldUseRAG_total question w) as (d & new & Hf & _).
    destruct (shouldUseRAG question w) as [o w1] eqn:E. simpl in Hf.
    subst o. exists d, w1. split; [reflexivity|].
    destruct (has_keyword ragKeywords question) eqn:Hr.
    { rewrite shouldUseRAG_rag_keyword in E by exact Hr.
      apply returns_pair in E as [_ <-]. reflexivity. }
    destruct (has_keyword generalKeywords question) eqn:Hg.
    { rewrite shouldUseRAG_general_keyword in E by assumption.
      apply returns_pair in E as [_ <-]. reflexivity. }
    pose proof (shouldUseRAG_ambiguous question w Hr Hg) as H.
    cbv zeta in H. destruct H as (Hthrow & Hbad & Hgood).
    destruct (global_fetch (log w) (decision_request question))
      as [response|e] eqn:Ho.
    + destruct (call_failed (Returns response)) eqn:Hcf.
      * destruct (Hbad response eq_refl eq_refl) as [e He].
        rewrite He in E. apply returns_pair in E as [_ <-]. reflexivity.
      * simpl in Hcf. apply orb_false_iff in Hcf as [Hok Hj].
        apply negb_false_iff in Hok.
        destruct (http_json response) as [a|] eqn:Ea; [|discriminate].
        rewrite (Hgood response a eq_refl Hok Ea) in E.
        apply returns_pair in E as [_ <-]. reflexivity.
    + rewrite (Hthrow e eq_refl) in E.
      apply returns_pair in E as [_ <-]. reflexivity.
Qed.

(** The chat handler on a body with a question, step by step. *)
Lemma chat_run (request : Request) (b : JsonBody) (question : jsstring)
    (w : World) :
  req_json request = Returns b ->
  b_question b = Some question ->
  question <> [] ->
  exists shouldUse w1,
    (if match b_forceRAG b with Some f => f | None => false end
     then ret true else shouldUseRAG question) w = (Returns shouldUse, w1)
    /\ chat_history w1 = chat_history w
    /\ chat request w =
       match
         (if shouldUse : bool
          then processWithRAG question
                 (match b_topK b with Some k => k | None => 3%Q end)
          else processGeneral question) w1
       with
       | (Throws e, w2) =>
           (Returns (Response_json 500
                       (PError (lit "Failed to process chat request")
                          (Some (message_of e)))),
            record (EvConsoleError (lit "Chat endpoint error:") e) w2)
       | (Returns result, w2) =>
           let w3 := snd (save_interaction result w2) in
           let timestamp := Date_toISOString (log w3) in
           (Returns (Response_json 200
                       (PChat result
                          (if shouldUse then lit "RAG" else lit "GENERAL")
                          timestamp)),
            record (EvDate timestamp) w3)
       end.
Proof.
  intros Hb Hq Hne.
  destruct (decide_total
              (match b_forceRAG b with Some f => f | None => false end)
              question w) as (shouldUse & w1 & Hd & Hh).
  exists shouldUse, w1. split; [exact Hd|]. split; [exact Hh|].
  unfold chat, try_catch, bind, await. rewrite Hb, Hq.
  destruct question as [|c question]; [congruence|].
  rewrite Hd.
  match goal with
  | |- context [(if shouldUse then ?p else ?g) w1] =>
      destruct ((if shouldUse then p else g) w1) as [[result|e] w2]
  end; [|reflexivity].
  destruct (save_interaction_run result w2) as (w3 & new & Hs & _ & _).
  rewrite Hs. reflexivity.
Qed.


(** What a returned result of either pipeline says of itself. *)
Lemma pipeline_result_flags (shouldUse : bool) (question : jsstring)
    (topK : Q) (w w' : World) (r : PipelineResult) :
  (if shouldUse then processWithRAG question topK
   else processGeneral question) w = (Returns r, w') ->
  res_usedRAG r = shouldUse
  /\ res_question r = question
  /\ chat_history w' = chat_history w
  /\ (shouldUse = false ->
      res_sources r = [] /\ res_context_used r = false).
Proof.
  destruct shouldUse; intros H.
  - destruct (processWithRAG_returns _ _ _ H)
      as (? & ? & ? & ? & ? & _ & _ & _ & _ & Hh & _ & _ & Hq & Hu & _).
    repeat split; try assumption; discriminate.
  - rewrite processGeneral_run in H. cbv zeta in H.
    unfold general_failure in H.
    destruct (global_fetch (log w) (general_request question))
      as [response|e0]; [|discriminate].
    destruct (reply_of response) as [a|e0]; [|discriminate].
    apply returns_pair in H as [<- <-]. repeat split.
Qed.

(** X17. A POST to [/chat] without a question, or with an empty one, is answered
    400 "Question is required" before anything else happens, [forceRAG] or
    not: no call is made and the world is left as it was. *)
Theorem chat_requires_question (request : Request) (b : JsonBody)
    (w : World) :
  pathname request = lit "/chat" ->
  method request = lit "POST" ->
  req_json request = Returns b ->
  b_question b = None \/ b_question b = Some [] ->
  fetch request w
  = (Returns (Response_json 400 (PError (lit "Question is required") None)),
     w).
Proof.
  intros Hp Hm Hb Hq. rewrite (fetch_chat _ _ Hp Hm).
  unfold chat, try_catch, bind, await. rewrite Hb.
  destruct Hq as [Hq|Hq]; rewrite Hq; reflexivity.
Qed.

(** X18. A POST to [/chat] whose body cannot be read is answered 500 with the
    message of the failure as [details]; only the error is logged. *)
Theorem chat_unreadable_body (request : Request) (e : Thrown) (w : World) :
  pathname request = lit "/chat" ->
  method request = lit "POST" ->
  req_json request = Throws e ->
  fetch request w
  = (Returns (Response_json 500
                (PError (lit "Failed to process chat request")
                   (Some (message_of e)))),
     record (EvConsoleError (lit "Chat endpoint error:") e) w).
Proof.
  intros Hp Hm Hb. rewrite (fetch_chat _ _ Hp Hm).
  unfold chat, try_catch, bind, await. rewrite Hb. reflexivity.
Qed.

(** The three kinds of answer of the chat route. *)
Lemma chat_answers (request : Request) (w : World) :
  exists response w',
    chat request w = (Returns response, w')
    /\ ((exists result decision timestamp,
            response = Response_json 200 (PChat result decision timestamp))
        \/ response
           = Response_json 400 (PError (lit "Question is required") None)
        \/ (exists e,
               response
               = Response_json 500
                   (PError (lit "Failed to process chat request")
                      (Some (message_of e))))).
Proof.
  destruct (req_json request) as [b|e] eqn:Hb.
  2:{ unfold chat, try_catch, bind, await. rewrite Hb.
      eexists _, _. split; [reflexivity|]. right. right. now exists e. }
  destruct (b_question b) as [[|c question]|] eqn:Hq.
  1,3: unfold chat, try_catch, bind, await; rewrite Hb, Hq;
       eexists _, _; (split; [reflexivity|]); right; left; reflexivity.
  destruct (@chat_run request b (c :: question) w Hb Hq)
    as (shouldUse & w1 & _ & _ & Hrun); [discriminate|].
  rewrite Hrun.
  match goal with
  | |- context [(if shouldUse then ?p else ?g) w1] =>
      destruct ((if shouldUse then p else g) w1) as [[result|e] w2]
  end.
  - eexists _, _. split; [reflexivity|]. left. eexists _, _, _. reflexivity.
  - eexists _, _. split; [reflexivity|]. right. right. now exists e.
Qed.

(** X19. A POST to [/chat] is always answered, with the CORS headers: 200 with a
    chat result, 400 "Question is required", or 500 "Failed to process chat
    request" with a message; no exception leaves the handler, whatever the
    providers and the history store do. *)
Theorem chat_always_answers (request : Request) (w : World) :
  pathname request = lit "/chat" ->
  method request = lit "POST" ->
  exists response w',
    fetch request w = (Returns response, w')
    /\ headers response = corsHeaders
    /\ ((status response = 200%Z
         /\ exists result decision timestamp,
             body response = BJson (PChat result decision timestamp))
        \/ (status response = 400%Z
            /\ body response
               = BJson (PError (lit "Question is required") None))
        \/ (status response = 500%Z
            /\ exists details,
                body response
                = BJson (PError (lit "Failed to process chat request")
                           (Some details)))).
Proof.
  intros Hp Hm. rewrite (fetch_chat _ _ Hp Hm).
  destruct (chat_answers request w) as (response & w' & Hrun & Hkind).
  exists response, w'. split; [exact Hrun|].
  destruct Hkind as [(r & d & t & ->)|[->|(e & ->)]].
  - split; [reflexivity|]. left. split; [reflexivity|].
    exists r, d, t. reflexivity.
  - split; [reflexivity|]. right. left. split; reflexivity.
  - split; [reflexivity|]. right. right. split; [reflexivity|].
    eexists. reflexivity.
Qed.

(** Every way the chat handler can end. *)
Lemma chat_outcome (request : Request) (w w' : World) (response : Response) :
  chat request w = (Returns response, w') ->
  (exists e,
      req_json request = Throws e
      /\ response
         = Response_json 500
             (PError (lit "Failed to process chat request")
                (Some (message_of e))))
  \/ (exists b,
         req_json request = Returns b
         /\ (b_question b = None \/ b_question b = Some [])
         /\ response
            = Response_json 400 (PError (lit "Question is required") None))
  \/ (exists b question shouldUse w1,
         req_json request = Returns b
         /\ b_question b = Some question
         /\ chat_history w1 = chat_history w
         /\ ((exists e w2,
                 (if shouldUse : bool
                  then processWithRAG question
                         (match b_topK b with Some k => k | None => 3%Q end)
                  else processGeneral question) w1 = (Throws e, w2)
                 /\ response
                    = Response_json 500
                        (PError (lit "Failed to process chat request")
                           (Some (message_of e))))
             \/ (exists result w2 timestamp,
                    (if shouldUse : bool
                     then processWithRAG question
                            (match b_topK b with
                             | Some k => k | None => 3%Q end)
                     else processGeneral question) w1 = (Returns result, w2)
                    /\ response
                       = Response_json 200
                           (PChat result
                              (if shouldUse then lit "RAG"
                               else lit "GENERAL")
                              timestamp)
                    /\ chat_history w'
                       = chat_history (snd (save_interaction result w2))))).
Proof.
  destruct (req_json request) as [b|e] eqn:Hb.
  2:{ unfold chat, try_catch, bind, await. rewrite Hb.
      intros H. apply returns_pair in H as [<- _]. left. now exists e. }
  destruct (b_question b) as [[|c question]|] eqn:Hq.
  1,3: unfold chat, try_catch, bind, await; rewrite Hb, Hq;
       intros H; apply returns_pair in H as [<- _];
       right; left; exists b; auto.
  destruct (@chat_run request b (c :: question) w Hb Hq)
    as (shouldUse & w1 & _ & Hh & Hrun); [discriminate|].
  rewrite Hrun. intros H. right. right.
  exists b, (c :: question), shouldUse, w1.
  split; [reflexivity|]. split; [exact Hq|]. split; [exact Hh|].
  match type of H with
  | context [(if shouldUse then ?p else ?g) w1] =>
      destruct ((if shouldUse then p else g) w1) as [[result|e] w2]
  end.
  - cbv zeta in H. apply returns_pair in H as [<- <-].
    right. eexists result, w2, _.
    split; [reflexivity|]. split; reflexivity.
  - apply returns_pair in H as [<- _].
    left. exists e, w2. split; reflexivity.
Qed.

Lemma response_json_inj (st st' : Z) (p p' : Payload) :
  Response_json st p = Response_json st' p' -> st = st' /\ p = p'.
Proof.
  unfold Response_json. intros H. injection H as -> ->. split; reflexivity.
Qed.

Lemma pchat_inj (r r' : PipelineResult) (d d' t t' : jsstring) :
  PChat r d t = PChat r' d' t' -> r = r' /\ d = d' /\ t = t'.
Proof. intros H. injection H as -> -> ->. repeat split. Qed.

Lemma bjson_inj (p p' : Payload) : BJson p = BJson p' -> p = p'.
Proof. intros H. now injection H. Qed.

(** With a stub and a storage that do not fail, recording stores the
    interaction at the end of the history. *)
Lemma save_interaction_reliable (result : PipelineResult) (w : World) :
  store_reliable ->
  chat_history (snd (save_interaction result w))
  = Some (push_trim (stored_history w)
            {| rec_question := Some (res_question result);
               rec_answer := Some (res_answer result);
               rec_usedRAG := Some (res_usedRAG result);
               rec_timestamp := Some (Date_toISOString (log w)) |}).
Proof.
  intros Hrel.
  unfold save_interaction, try_catch, bind, new_Date_toISOString,
    agentStub_fetch, console_error, ret. cbv zeta.
  set (ts := Date_toISOString (log w)).
  set (w1 := record (EvDate ts) w).
  destruct (Hrel (log w1)) as (_ & _ & Hstub). rewrite Hstub.
  rewrite save_run by reflexivity. simpl req_json. cbv zeta.
  set (w2 := record (EvStubFetch _ _) w1).
  destruct (Hrel (log w2)) as (Hg & _ & _). rewrite Hg.
  match goal with
  | |- context [storage_put_failure ?l] =>
      destruct (Hrel l) as (_ & Hput & _); rewrite Hput
  end.
  reflexivity.
Qed.

(** X20. In every chat answer that carries a result, the result is about the
    question asked, and its [usedRAG] flag agrees with [agentDecision]: true
    with "RAG", and false with "GENERAL", in which case the result has no
    sources and did not use a context. *)
Theorem chat_decision_matches_result (request : Request) (w w' : World)
    (response : Response) (result : PipelineResult)
    (decision timestamp : jsstring) :
  pathname request = lit "/chat" ->
  method request = lit "POST" ->
  fetch request w = (Returns response, w') ->
  body response = BJson (PChat result decision timestamp) ->
  (exists b, req_json request = Returns b
             /\ b_question b = Some (res_question result))
  /\ ((res_usedRAG result = true /\ decision = lit "RAG")
      \/ (res_usedRAG result = false /\ decision = lit "GENERAL"
          /\ res_sources result = [] /\ res_context_used result = false)).
Proof.
  intros Hp Hm Hrun Hbody. rewrite (fetch_chat _ _ Hp Hm) in Hrun.
  destruct (chat_outcome _ _ Hrun)
    as [(e & _ & ->)|[(b & _ & _ & ->)
        |(b & question & shouldUse & w1 & Hb & Hq & _ & Hpipe)]];
    try discriminate.
  destruct Hpipe as [(e & w2 & _ & ->)|(r & w2 & ts & Hr & -> & _)];
    [discriminate|].
  apply bjson_inj, pchat_inj in Hbody. destruct Hbody as (-> & <- & _).
  destruct (pipeline_result_flags _ _ _ _ Hr) as (Hu & Hquestion & _ & Hgen).
  split.
  - exists b. split; [exact Hb|]. now rewrite Hquestion.
  - destruct shouldUse.
    + left. split; [exact Hu|reflexivity].
    + right. destruct (Hgen eq_refl) as [Hs Hc]. auto.
Qed.

(** X21. With a history store that does not fail, a chat answer that carries a
    result has been recorded: the store then ends with a record of the
    question, the answer and the [usedRAG] flag of that result, after the
    records it held (the oldest ones dropped beyond 100). *)
Theorem chat_records_interaction (request : Request) (w w' : World)
    (response : Response) (result : PipelineResult)
    (decision timestamp : jsstring) :
  store_reliable ->
  pathname request = lit "/chat" ->
  method request = lit "POST" ->
  fetch request w = (Returns response, w') ->
  body response = BJson (PChat result decision timestamp) ->
  exists evicted kept saved_at,
    chat_history w'
    = Some (kept ++ [ {| rec_question := Some (res_question result);
                         rec_answer := Some (res_answer result);
                         rec_usedRAG := Some (res_usedRAG result);
                         rec_timestamp := Some saved_at |} ])
    /\ evicted ++ kept = stored_history w
    /\ length kept < 100.
Proof.
  intros Hrel Hp Hm Hrun Hbody. rewrite (fetch_chat _ _ Hp Hm) in Hrun.
  destruct (chat_outcome _ _ Hrun)
    as [(e & _ & ->)|[(b & _ & _ & ->)
        |(b & question & shouldUse & w1 & Hb & Hq & Hh1 & Hpipe)]];
    try discriminate.
  destruct Hpipe as [(e & w2 & _ & ->)|(r & w2 & ts & Hr & -> & Hh)];
    [discriminate|].
  apply bjson_inj, pchat_inj in Hbody. destruct Hbody as (-> & _ & _).
  destruct (pipeline_result_flags _ _ _ _ Hr) as (_ & _ & Hh2 & _).
  rewrite Hh, (save_interaction_reliable result w2 Hrel).
  assert (Hs : stored_history w2 = stored_history w).
  { unfold stored_history. now rewrite Hh2, Hh1. }
  rewrite Hs.
  set (rec := {| rec_question := Some (res_question result);
                 rec_answer := Some (res_answer result);
                 rec_usedRAG := Some (res_usedRAG result);
                 rec_timestamp := Some (Date_toISOString (log w2)) |}).
  pose proof (push_trim_length (stored_history w) rec) as Hlen.
  rewrite push_trim_slice in *.
  assert (Hcut : exists evicted,
             evicted ++ slice_last 100 (stored_history w ++ [rec])
             = stored_history w ++ [rec]).
  { unfold slice_last. eexists. apply firstn_skipn. }
  destruct Hcut as [evicted Hcut].
  destruct (slice_last 100 (stored_history w ++ [rec]))
    as [|x xs] eqn:Ecut using rev_ind.
  - exfalso. rewrite app_nil_r in Hcut.
    revert Ecut. unfold slice_last.
    rewrite length_app. simpl length.
    intros Ecut. apply (f_equal (@length _)) in Ecut.
    rewrite length_skipn, length_app in Ecut. simpl in Ecut. lia.
  - clear IHxs. rewrite app_assoc in Hcut.
    apply app_inj_tail in Hcut as [Hkeep ->].
    exists evicted, xs, (Date_toISOString (log w2)).
    split; [reflexivity|]. split; [exact Hkeep|].
    rewrite length_app in Hlen. simpl in Hlen. lia.
Qed.


End Chat.

(** ** The routes after [/chat] *)

(** Settles the comparisons of two literal paths or methods in the goal. *)
Ltac settle_routes :=
  repeat match goal with
         | |- context [str_eqb (lit ?a) (lit ?b)] =>
             let v := eval vm_compute in (str_eqb (lit a) (lit b)) in
             let E := fresh "E" in
             assert (E : str_eqb (lit a) (lit b) = v)
               by (vm_compute; reflexivity);
             rewrite E; clear E
         | |- context [startsWith (lit ?a) (lit ?b)] =>
             let v := eval vm_compute in (startsWith (lit a) (lit b)) in
             let E := fresh "E" in
             assert (E : startsWith (lit a) (lit b) = v)
               by (vm_compute; reflexivity);
             rewrite E; clear E
         end;
  cbn [andb].

Section Routes.
Context {rt : Runtime} {sv : Services} {lr : LaterRoutes} {ir : InsertRoute}.

(** On the routes up to [/chat] the worker answers as the front door. *)
Lemma worker_fetch_front (request : WorkerRequest) (w : World) :
  startsWith (pathname (base request)) (lit "/favicon") = true
  \/ method (base request) = lit "OPTIONS"
  \/ (pathname (base request) = lit "/chat"
      /\ method (base request) = lit "POST") ->
  worker_fetch request w
  = (let (o, w') := fetch (base request) w in
     (match o with
      | Returns response => Returns (shared response)
      | Throws e => Throws e
      end, w')).
Proof.
  intros H. unfold worker_fetch, fetch.
  destruct (startsWith (pathname (base request)) (lit "/favicon"));
    [reflexivity|].
  destruct H as [H|[H|[Hp Hm]]]; [discriminate| |].
  - rewrite H, str_eqb_refl. reflexivity.
  - rewrite Hp, Hm. settle_routes. unfold bind, ret.
    destruct (chat (base request) w) as [[response|e] w']; reflexivity.
Qed.

(** X23. [/agent/history], for every method but OPTIONS, answers 200 with
    whatever object the durable object answered: the stored list when the
    storage could be read, and also the object's own error when it could
    not. Only a failure to reach the object is answered 500. *)
Theorem agent_history_relays_store (request : WorkerRequest) (w : World) :
  pathname (base request) = lit "/agent/history" ->
  method (base request) <> lit "OPTIONS" ->
  let w1 := record (EvStubFetch (lit "/history") (stub_fetch_failure (log w)))
              w in
  worker_fetch request w =
  match stub_fetch_failure (log w) with
  | Some e =>
      (Returns (shared (Response_json 500
                          (PError (lit "Failed to get agent history")
                             (Some (message_of e))))), w1)
  | None =>
      (Returns
         (shared
            (Response_json 200
               match storage_get_failure (log w1) with
               | Some e =>
                   PError (lit "Failed to retrieve history")
                     (Some (message_of e))
               | None => PHistory (stored_history w)
               end)),
       record (EvStorageGet (storage_get_failure (log w1))) w1)
  end.
Proof.
  intros Hp Hm. cbv zeta.
  unfold worker_fetch, routes_after_chat. rewrite Hp.
  rewrite (@str_eqb_no (method (base request)) (lit "OPTIONS") Hm).
  settle_routes.
  unfold agent_history, try_catch, bind, agentStub_fetch, await, ret.
  cbv zeta. change (pathname (stub_get (lit "/history"))) with (lit "/history").
  destruct (stub_fetch_failure (log w)) as [e|]; [reflexivity|].
  rewrite history_run by reflexivity. cbv zeta. simpl log.
  destruct (storage_get_failure _) as [e|]; reflexivity.
Qed.

(** X24. [/agent/stats] does the same with the statistics: 200 with the
    statistics of the stored history, 200 with the durable object's error
    when the storage could not be read, 500 only when the object could not
    be reached. *)
Theorem agent_stats_relays_store (request : WorkerRequest) (w : World) :
  pathname (base request) = lit "/agent/stats" ->
  method (base request) <> lit "OPTIONS" ->
  let w1 := record (EvStubFetch (lit "/stats") (stub_fetch_failure (log w)))
              w in
  worker_fetch request w =
  match stub_fetch_failure (log w) with
  | Some e =>
      (Returns (shared (Response_json 500
                          (PError (lit "Failed to get agent stats")
                             (Some (message_of e))))), w1)
  | None =>
      (Returns
         (shared
            (Response_json 200
               match storage_get_failure (log w1) with
               | Some e =>
                   PError (lit "Failed to get stats") (Some (message_of e))
               | None => PStats (stats_of (stored_history w))
               end)),
       record (EvStorageGet (storage_get_failure (log w1))) w1)
  end.
Proof.
  intros Hp Hm. cbv zeta.
  unfold worker_fetch, routes_after_chat. rewrite Hp.
  rewrite (@str_eqb_no (method (base request)) (lit "OPTIONS") Hm).
  settle_routes.
  unfold agent_stats, try_catch, bind, agentStub_fetch, await, ret.
  cbv zeta. change (pathname (stub_get (lit "/stats"))) with (lit "/stats").
  destruct (stub_fetch_failure (log w)) as [e|]; [reflexivity|].
  unfold MyAgent_fetch.
  change (pathname (stub_get (lit "/stats"))) with (lit "/stats").
  change (method (stub_get (lit "/stats"))) with (lit "GET").
  settle_routes.
  unfold try_catch, bind, storage_get, ret. cbv zeta. simpl log.
  destruct (storage_get_failure _) as [e|]; reflexivity.
Qed.


(** X26. [POST /search] with a query, when the embedding and the index answer,
    returns one entry per match, in the order of the index and without any
    threshold on the score; the content of an entry is the whole metadata
    content, not a preview. Without [topK] the index is asked for 5. *)
Theorem search_returns_every_match_in_full (request : WorkerRequest)
    (b : JsonBody) (query : jsstring) (w : World)
    (queryVector : EmbeddingResponse) (vector : list Q)
    (rest : list (list Q)) (matches : list VMatch) :
  pathname (base request) = lit "/search" ->
  method (base request) = lit "POST" ->
  req_json (base request) = Returns b ->
  b_query request = Some query ->
  query <> [] ->
  AI_run (log w) embedding_model query = Returns queryVector ->
  data queryVector = Some (vector :: rest) ->
  VECTORIZE_query
    (EvEmbed embedding_model query (Returns queryVector) :: log w)
    vector (match b_topK b with Some k => k | None => 5%Q end)
  = Returns matches ->
  exists hits w',
    worker_fetch request w
    = (Returns (Worker_json 200 (WSearch query hits)), w')
    /\ map hit_id hits = map m_id matches
    /\ map hit_score hits = map m_score matches
    /\ map hit_content hits = map (metadata_field (lit "content")) matches
    /\ log w'
       = EvQuery vector (match b_topK b with Some k => k | None => 5%Q end)
           (Returns matches)
         :: EvEmbed embedding_model query (Returns queryVector) :: log w.
Proof.
  intros Hp Hm Hb Hq Hne Ha Hd Hv.
  unfold worker_fetch, routes_after_chat. rewrite Hp, Hm. settle_routes.
  unfold search, try_catch, bind, await, env_AI_run, env_VECTORIZE_query, ret.
  rewrite Hb, Hq. destruct query as [|c query]; [congruence|].
  cbv zeta. rewrite Ha, Hd. simpl log. rewrite Hv.
  eexists _, _. split; [reflexivity|].
  rewrite !map_map. repeat split.
Qed.

(** X27. [POST /search] without a query, or with an empty one, is answered 400
    "Query is required" and calls nothing; and when the embedding model
    answers without a vector it is answered 500 "No query vector data
    received", without [details], and the index is not queried. *)
Theorem search_edge_cases (request : WorkerRequest) (b : JsonBody)
    (w : World) :
  pathname (base request) = lit "/search" ->
  method (base request) = lit "POST" ->
  req_json (base request) = Returns b ->
  (b_query request = None \/ b_query request = Some [] ->
   worker_fetch request w
   = (Returns (shared (Response_json 400
                         (PError (lit "Query is required") None))), w))
  /\ (forall query queryVector,
        b_query request = Some query ->
        query <> [] ->
        AI_run (log w) embedding_model query = Returns queryVector ->
        data queryVector = None \/ data queryVector = Some [] ->
        worker_fetch request w
        = (Returns (shared (Response_json 500
                              (PError (lit "No query vector data received")
                                 None))),
           record (EvEmbed embedding_model query (Returns queryVector)) w)).
Proof.
  intros Hp Hm Hb.
  unfold worker_fetch, routes_after_chat. rewrite Hp, Hm. settle_routes.
  unfold search, try_catch, bind, await, env_AI_run, ret. rewrite Hb.
  split.
  - intros [Hq|Hq]; rewrite Hq; reflexivity.
  - intros query emb Hq Hne Ha Hd. rewrite Hq.
    destruct query as [|c query]; [congruence|].
    cbv zeta. rewrite Ha. destruct Hd as [Hd|Hd]; rewrite Hd; reflexivity.
Qed.

(** X28. A route that only answers POST does not refuse another method: a
    request to [/chat], [/insert], [/search] or [/agent/test] with a method
    that is neither POST nor OPTIONS gets the discovery document under status
    200, like an unknown path, and nothing is called. *)
Theorem post_only_routes_fall_through (request : WorkerRequest) (w : World) :
  In (pathname (base request))
     [lit "/chat"; lit "/insert"; lit "/search"; lit "/agent/test"] ->
  method (base request) <> lit "POST" ->
  method (base request) <> lit "OPTIONS" ->
  worker_fetch request w = (Returns (Worker_json 200 discovery_document), w).
Proof.
  intros Hp Hm Ho. unfold worker_fetch, routes_after_chat.
  rewrite (@str_eqb_no (method (base request)) (lit "OPTIONS") Ho).
  rewrite (@str_eqb_no (method (base request)) (lit "POST") Hm).
  destruct Hp as [<-|[<-|[<-|[<-|[]]]]]; settle_routes; reflexivity.
Qed.

(** X29. A path that no route knows gets the discovery document under status
    200, whatever the method (OPTIONS apart), and nothing is called. *)
Theorem unknown_path_gets_discovery (request : WorkerRequest) (w : World) :
  startsWith (pathname (base request)) (lit "/favicon") = false ->
  method (base request) <> lit "OPTIONS" ->
  ~ In (pathname (base request))
      [lit "/chat"; lit "/insert"; lit "/search"; lit "/agent/status";
       lit "/agent/history"; lit "/agent/stats"; lit "/agent/test";
       lit "/health"] ->
  worker_fetch request w = (Returns (Worker_json 200 discovery_document), w).
Proof.
  intros Hf Ho Hp. unfold worker_fetch, routes_after_chat. rewrite Hf.
  rewrite (@str_eqb_no (method (base request)) (lit "OPTIONS") Ho).
  repeat match goal with
         | |- context [str_eqb (pathname (base request)) (lit ?p)] =>
             rewrite (@str_eqb_no (pathname (base request)) (lit p))
               by (intros E; apply Hp; rewrite E; simpl; tauto)
         end.
  reflexivity.
Qed.

End Routes.

(** ** The properties above at concrete inputs *)

Lemma sample_store_reliable (embedding : Outcome EmbeddingResponse)
    (matches : Outcome (list VMatch)) (completion : Outcome HttpResponse) :
  store_reliable (sv := Sample.services embedding matches completion).
Proof. intros l. repeat split. Qed.

Lemma only_completed_save_changes_history_witness :
  chat_history
    (snd (MyAgent_fetch (rt := Sample.runtime) (sv := Sample.offline)
            (Scenario.post "/stats" Sample.no_body) Scenario.two_records))
  = chat_history Scenario.two_records.
Proof.
  pose proof (@only_completed_save_changes_history
                Sample.runtime Sample.offline
                (Scenario.post "/stats" Sample.no_body) Scenario.two_records
                (snd (MyAgent_fetch (rt := Sample.runtime)
                        (sv := Sample.offline)
                        (Scenario.post "/stats" Sample.no_body)
                        Scenario.two_records))
                (Response_json 404 (PError (lit "Not found") None))
                ltac:(vm_compute; reflexivity)
                ltac:(intros n; vm_compute; discriminate)) as H.
  vm_compute in H. vm_compute. exact H.
Defined.

Lemma unreadable_save_body_touches_nothing_witness :
  MyAgent_fetch (rt := Sample.runtime) (sv := Sample.offline)
    (Scenario.post "/save" Sample.no_body) Scenario.two_records
  = (Returns (Response_json 500
                (PError (lit "Failed to save to history")
                   (Some (message_of
                            (JsError (lit "Unexpected end of JSON input")))))),
     Scenario.two_records).
Proof.
  exact (@unreadable_save_body_touches_nothing
           Sample.runtime Sample.offline
           (Scenario.post "/save" Sample.no_body) Scenario.two_records
           (JsError (lit "Unexpected end of JSON input"))
           eq_refl eq_refl eq_refl).
Defined.

Lemma saved_record_is_last_in_history_witness :
  exists kept,
    fst (MyAgent_fetch (rt := Sample.runtime) (sv := Sample.offline)
           (stub_get (lit "/history"))
           (snd (MyAgent_fetch (rt := Sample.runtime) (sv := Sample.offline)
                   (save_body (Scenario.body_of (Some (lit "hola")) None))
                   Scenario.two_records)))
    = Returns (Response_json 200
                 (PHistory
                    (kept ++ [record_of (Scenario.body_of (Some (lit "hola"))
                                           None)])))
    /\ length (kept ++ [record_of (Scenario.body_of (Some (lit "hola"))
                                     None)]) = 3
    /\ 3 <= 100.
Proof.
  pose proof (@saved_record_is_last_in_history
                Sample.runtime Sample.offline
                (save_body (Scenario.body_of (Some (lit "hola")) None))
                (Scenario.body_of (Some (lit "hola")) None)
                Scenario.two_records
                (snd (MyAgent_fetch (rt := Sample.runtime)
                        (sv := Sample.offline)
                        (save_body (Scenario.body_of (Some (lit "hola"))
                                      None))
                        Scenario.two_records))
                (Response_json 200 (PSaved 3)) 3
                ltac:(vm_compute; reflexivity)
                ltac:(vm_compute; reflexivity)
                ltac:(vm_compute; reflexivity)
                ltac:(vm_compute; reflexivity)
                ltac:(vm_compute; reflexivity)
                ltac:(vm_compute; reflexivity)) as H.
  exact H.
Defined.

Lemma saves_keep_last_hundred_witness :
  chat_history
    (snd (save_all (rt := Sample.runtime) (sv := Sample.offline)
            [ Scenario.body_of (Some (lit "uno")) None;
              Scenario.body_of (Some (lit "dos")) None ]
            Scenario.two_records))
  = Some [ Sample.interaction 0 true; Sample.interaction 1 false;
           record_of (Scenario.body_of (Some (lit "uno")) None);
           record_of (Scenario.body_of (Some (lit "dos")) None) ].
Proof.
  pose proof (proj2 (@saves_keep_last_hundred
                       Sample.runtime Sample.offline
                       [ Scenario.body_of (Some (lit "uno")) None;
                         Scenario.body_of (Some (lit "dos")) None ]
                       Scenario.two_records
                       (sample_store_reliable _ _ _)
                       ltac:(discriminate))) as H.
  vm_compute in H. vm_compute. exact H.
Defined.

Lemma general_keyword_means_general_witness :
  shouldUseRAG (rt := Sample.runtime) (sv := Sample.offline)
    (lit "Hola, quiero explicar conceptos") Sample.empty_world
  = (Returns false, Sample.empty_world).
Proof.
  apply (@general_keyword_means_general
           Sample.runtime Sample.offline
           (lit "Hola, quiero explicar conceptos") (lit "hola")
           Sample.empty_world).
  - left. reflexivity.
  - vm_compute. reflexivity.
  - intros k Hk. unfold ragKeywords in Hk. simpl in Hk.
    repeat (destruct Hk as [<-|Hk]; [vm_compute; reflexivity|]).
    destruct Hk.
Defined.

Lemma general_pipeline_result_witness :
  res_answer Scenario.general_result <> []
  /\ processGeneral (rt := Sample.runtime) (sv := Scenario.answering)
       (lit "hola") Sample.empty_world
     = (Returns Scenario.general_result,
        snd (processGeneral (rt := Sample.runtime)
               (sv := Scenario.answering) (lit "hola") Sample.empty_world)).
Proof.
  assert (Hrun :
           processGeneral (rt := Sample.runtime) (sv := Scenario.answering)
             (lit "hola") Sample.empty_world
           = (Returns Scenario.general_result,
              snd (processGeneral (rt := Sample.runtime)
                     (sv := Scenario.answering) (lit "hola")
                     Sample.empty_world)))
    by (vm_compute; reflexivity).
  destruct (@general_pipeline_result
              Sample.runtime Scenario.answering (lit "hola")
              Sample.empty_world _ _ Hrun)
    as (response & a & _ & _ & _ & Hne & _).
  split; [exact Hne|exact Hrun].
Defined.

Lemma general_pipeline_fails_with_call_witness :
  exists cause,
    fst (processGeneral (rt := Sample.runtime) (sv := Sample.offline)
           (lit "hola") Sample.empty_world)
    = Throws (JsError (lit "General processing failed: "
                         ++ message_of cause)).
Proof.
  destruct (proj2 (@general_pipeline_fails_with_call
                     Sample.runtime Sample.offline (lit "hola")
                     Sample.empty_world)
              ltac:(vm_compute; reflexivity)) as [cause H].
  exists cause. rewrite H. reflexivity.
Defined.

Lemma rag_pipeline_errors_are_wrapped_witness :
  exists cause,
    JsError (lit "RAG processing failed: fetch failed")
    = JsError (lit "RAG processing failed: " ++ message_of cause).
Proof.
  destruct (@rag_pipeline_errors_are_wrapped
              Sample.runtime Sample.offline (lit "hola") 3%Q
              Sample.empty_world
              (snd (processWithRAG (rt := Sample.runtime)
                      (sv := Sample.offline) (lit "hola") 3%Q
                      Sample.empty_world))
              (JsError (lit "RAG processing failed: fetch failed"))
              ltac:(vm_compute; reflexivity))
    as (cause & w1 & He & _).
  exists cause. exact He.
Defined.

Lemma no_embedding_no_query_witness :
  fst (processWithRAG (rt := Sample.runtime) (sv := Scenario.no_vector)
         (lit "hola") 3%Q Sample.empty_world)
  = Throws (JsError
              (lit "RAG processing failed: Failed to generate query embedding")).
Proof.
  rewrite (@no_embedding_no_query
             Sample.runtime Scenario.no_vector (lit "hola") 3%Q
             Sample.empty_world {| data := Some [] |}
             ltac:(vm_compute; reflexivity) (or_intror eq_refl)).
  reflexivity.
Defined.

Lemma completion_called_iff_context_witness :
  existsb is_fetch
    (log (snd (processWithRAG (rt := Sample.runtime)
                 (sv := Scenario.answering) (lit "hola") 3%Q
                 Sample.empty_world)))
  = res_context_used Scenario.strong_result.
Proof.
  exact (proj1 (@completion_called_iff_context
                  Sample.runtime Scenario.answering (lit "hola") 3%Q
                  Sample.empty_world
                  (snd (processWithRAG (rt := Sample.runtime)
                          (sv := Scenario.answering) (lit "hola") 3%Q
                          Sample.empty_world))
                  Scenario.strong_result
                  (log (snd (processWithRAG (rt := Sample.runtime)
                               (sv := Scenario.answering) (lit "hola") 3%Q
                               Sample.empty_world)))
                  ltac:(vm_compute; reflexivity)
                  ltac:(vm_compute; reflexivity))).
Defined.

Lemma rag_answer_never_empty_witness :
  res_answer Scenario.strong_result <> [].
Proof.
  exact (proj1 (@rag_answer_never_empty
                  Sample.runtime Scenario.answering (lit "hola") 3%Q
                  Sample.empty_world
                  (snd (processWithRAG (rt := Sample.runtime)
                          (sv := Scenario.answering) (lit "hola") 3%Q
                          Sample.empty_world))
                  Scenario.strong_result
                  ltac:(vm_compute; reflexivity))).
Defined.

Lemma failed_completion_fails_rag_witness :
  exists cause,
    fst (processWithRAG (rt := Sample.runtime) (sv := Scenario.silent)
           (lit "hola") 3%Q Sample.empty_world)
    = Throws (JsError (lit "RAG processing failed: " ++ message_of cause)).
Proof.
  exact (@failed_completion_fails_rag
           Sample.runtime Scenario.silent (lit "hola") 3%Q
           Sample.empty_world {| data := Some [[1; 0]%Q] |} [1; 0]%Q []
           [Sample.doc "doc-1-0" (9 # 10) (lit "hola mundo")]
           ltac:(vm_compute; reflexivity)
           ltac:(vm_compute; reflexivity)
           ltac:(vm_compute; reflexivity)
           ltac:(vm_compute; discriminate)
           ltac:(vm_compute; reflexivity)).
Defined.

Lemma falsy_content_not_in_context_witness :
  context_of (rt := Sample.runtime)
    ([Sample.doc "doc-1-0" (9 # 10) (lit "hola mundo")]
       ++ Scenario.bare_match :: [])
  = context_of (rt := Sample.runtime)
      ([Sample.doc "doc-1-0" (9 # 10) (lit "hola mundo")] ++ []).
Proof.
  exact (@falsy_content_not_in_context
           Sample.runtime
           [Sample.doc "doc-1-0" (9 # 10) (lit "hola mundo")] []
           Scenario.bare_match ltac:(vm_compute; reflexivity)).
Defined.

Lemma preview_length_bound_witness :
  length (repeat 97%N 200 ++ lit "...") <= 203.
Proof.
  exact (proj1 (@preview_length_bound
                  (Sample.doc "doc-7-0" (9 # 10) (repeat 97%N 250))
                  (repeat 97%N 200 ++ lit "...")
                  ltac:(vm_compute; reflexivity))).
Defined.

Lemma chat_requires_question_witness :
  fetch (rt := Sample.runtime) (sv := Sample.offline)
    (lr := Sample.discovery)
    (Scenario.post "/chat"
       (Returns (Scenario.body_of (Some []) (Some true))))
    Sample.empty_world
  = (Returns (Response_json 400 (PError (lit "Question is required") None)),
     Sample.empty_world).
Proof.
  exact (@chat_requires_question
           Sample.runtime Sample.offline Sample.discovery
           (Scenario.post "/chat"
              (Returns (Scenario.body_of (Some []) (Some true))))
           (Scenario.body_of (Some []) (Some true))
           Sample.empty_world
           ltac:(vm_compute; reflexivity)
           ltac:(vm_compute; reflexivity)
           ltac:(vm_compute; reflexivity)
           (or_intror eq_refl)).
Defined.

Lemma chat_unreadable_body_witness :
  fetch (rt := Sample.runtime) (sv := Sample.offline)
    (lr := Sample.discovery)
    (Scenario.post "/chat" Sample.no_body) Sample.empty_world
  = (Returns (Response_json 500
                (PError (lit "Failed to process chat request")
                   (Some (message_of
                            (JsError (lit "Unexpected end of JSON input")))))),
     record (EvConsoleError (lit "Chat endpoint error:")
               (JsError (lit "Unexpected end of JSON input")))
       Sample.empty_world).
Proof.
  exact (@chat_unreadable_body
           Sample.runtime Sample.offline Sample.discovery
           (Scenario.post "/chat" Sample.no_body)
           (JsError (lit "Unexpected end of JSON input"))
           Sample.empty_world
           eq_refl eq_refl eq_refl).
Defined.

Lemma chat_always_answers_witness :
  exists response w',
    fetch (rt := Sample.runtime) (sv := Scenario.answering)
      (lr := Sample.discovery)
      (Scenario.post "/chat"
         (Returns (Scenario.body_of (Some (lit "hola")) None)))
      Sample.empty_world
    = (Returns response, w')
    /\ headers response = corsHeaders.
Proof.
  destruct (@chat_always_answers
              Sample.runtime Scenario.answering Sample.discovery
              (Scenario.post "/chat"
                 (Returns (Scenario.body_of (Some (lit "hola")) None)))
              Sample.empty_world
              ltac:(vm_compute; reflexivity)
              ltac:(vm_compute; reflexivity))
    as (response & w' & Hrun & Hh & _).
  exists response, w'. split; [exact Hrun|exact Hh].
Defined.

Lemma chat_decision_matches_result_witness :
  (res_usedRAG Scenario.general_result = true
   /\ lit "GENERAL" = lit "RAG")
  \/ (res_usedRAG Scenario.general_result = false
      /\ lit "GENERAL" = lit "GENERAL"
      /\ res_sources Scenario.general_result = []
      /\ res_context_used Scenario.general_result = false).
Proof.
  exact (proj2 (@chat_decision_matches_result
                  Sample.runtime Scenario.answering Sample.discovery
                  (Scenario.post "/chat"
                     (Returns (Scenario.body_of (Some (lit "hola")) None)))
                  Sample.empty_world
                  (snd (fetch (rt := Sample.runtime)
                          (sv := Scenario.answering)
                          (lr := Sample.discovery)
                          (Scenario.post "/chat"
                             (Returns (Scenario.body_of (Some (lit "hola"))
                                         None)))
                          Sample.empty_world))
                  (Response_json 200
                     (PChat Scenario.general_result (lit "GENERAL")
                        (lit "2025-01-01T00:00:00.000Z")))
                  Scenario.general_result (lit "GENERAL")
                  (lit "2025-01-01T00:00:00.000Z")
                  ltac:(vm_compute; reflexivity)
                  ltac:(vm_compute; reflexivity)
                  ltac:(vm_compute; reflexivity)
                  ltac:(vm_compute; reflexivity))).
Defined.

Lemma chat_records_interaction_witness :
  exists evicted kept saved_at,
    chat_history
      (snd (fetch (rt := Sample.runtime) (sv := Scenario.answering)
              (lr := Sample.discovery)
              (Scenario.post "/chat"
                 (Returns (Scenario.body_of (Some (lit "hola")) None)))
              Scenario.two_records))
    = Some (kept ++ [ {| rec_question := Some (lit "hola");
                         rec_answer := Some (lit "Hola.");
                         rec_usedRAG := Some false;
                         rec_timestamp := Some saved_at |} ])
    /\ evicted ++ kept = stored_history Scenario.two_records
    /\ length kept < 100.
Proof.
  exact (@chat_records_interaction
           Sample.runtime Scenario.answering Sample.discovery
           (Scenario.post "/chat"
              (Returns (Scenario.body_of (Some (lit "hola")) None)))
           Scenario.two_records
           (snd (fetch (rt := Sample.runtime) (sv := Scenario.answering)
                   (lr := Sample.discovery)
                   (Scenario.post "/chat"
                      (Returns (Scenario.body_of (Some (lit "hola")) None)))
                   Scenario.two_records))
           (Response_json 200
              (PChat Scenario.general_result (lit "GENERAL")
                 (lit "2025-01-01T00:00:00.000Z")))
           Scenario.general_result (lit "GENERAL")
           (lit "2025-01-01T00:00:00.000Z")
           (sample_store_reliable _ _ _)
           ltac:(vm_compute; reflexivity)
           ltac:(vm_compute; reflexivity)
           ltac:(vm_compute; reflexivity)
           ltac:(vm_compute; reflexivity)).
Defined.


Lemma agent_history_relays_store_witness :
  fst (worker_fetch (rt := Sample.runtime) (sv := Scenario.unreadable_store)
         (ir := Scenario.idle_insert)
         (Scenario.plain (Scenario.get "/agent/history"))
         Scenario.two_records)
  = Returns (shared (Response_json 200
                       (PError (lit "Failed to retrieve history")
                          (Some (lit "storage is down"))))).
Proof.
  pose proof (f_equal fst
                (@agent_history_relays_store
                   Sample.runtime Scenario.unreadable_store
                   Scenario.idle_insert
                   (Scenario.plain (Scenario.get "/agent/history"))
                   Scenario.two_records
                   ltac:(vm_compute; reflexivity)
                   ltac:(vm_compute; discriminate))) as H.
  vm_compute in H. vm_compute. exact H.
Defined.

Lemma agent_stats_relays_store_witness :
  fst (worker_fetch (rt := Sample.runtime) (sv := Sample.offline)
         (ir := Scenario.idle_insert)
         (Scenario.plain (Scenario.get "/agent/stats"))
         Scenario.two_records)
  = Returns (shared (Response_json 200
                       (PStats {| totalInteractions := 2; ragUsage := 1;
                                  generalUsage := 1;
                                  ragPercentage := 50 |}))).
Proof.
  pose proof (f_equal fst
                (@agent_stats_relays_store
                   Sample.runtime Sample.offline Scenario.idle_insert
                   (Scenario.plain (Scenario.get "/agent/stats"))
                   Scenario.two_records
                   ltac:(vm_compute; reflexivity)
                   ltac:(vm_compute; discriminate))) as H.
  vm_compute in H. vm_compute. exact H.
Defined.


Lemma search_returns_every_match_in_full_witness :
  exists hits w',
    worker_fetch (rt := Sample.runtime) (sv := Sample.weak_match)
      (ir := Scenario.idle_insert)
      (Scenario.query_for (lit "hola")) Sample.empty_world
    = (Returns (Worker_json 200 (WSearch (lit "hola") hits)), w')
    /\ map hit_score hits = [1 # 2]
    /\ map hit_content hits = [Some (MStr (lit "hola mundo"))].
Proof.
  destruct (@search_returns_every_match_in_full
              Sample.runtime Sample.weak_match Scenario.idle_insert
              (Scenario.query_for (lit "hola"))
              (Scenario.body_of None None) (lit "hola")
              Sample.empty_world
              {| data := Some [[1; 0]%Q] |} [1; 0]%Q []
              [Sample.doc "doc-1-0" (1 # 2) (lit "hola mundo")]
              ltac:(vm_compute; reflexivity)
              ltac:(vm_compute; reflexivity)
              ltac:(vm_compute; reflexivity)
              ltac:(vm_compute; reflexivity)
              ltac:(vm_compute; discriminate)
              ltac:(vm_compute; reflexivity)
              ltac:(vm_compute; reflexivity)
              ltac:(vm_compute; reflexivity))
    as (hits & w' & Hrun & _ & Hscore & Hcontent & _).
  exists hits, w'. split; [exact Hrun|].
  split; [exact Hscore|]. rewrite Hcontent. vm_compute. reflexivity.
Defined.

Lemma search_edge_cases_witness :
  worker_fetch (rt := Sample.runtime) (sv := Sample.offline)
    (ir := Scenario.idle_insert)
    (Scenario.plain
       (Scenario.post "/search" (Returns (Scenario.body_of None None))))
    Sample.empty_world
  = (Returns (shared (Response_json 400
                        (PError (lit "Query is required") None))),
     Sample.empty_world).
Proof.
  exact (proj1 (@search_edge_cases
                  Sample.runtime Sample.offline Scenario.idle_insert
                  (Scenario.plain
                     (Scenario.post "/search"
                        (Returns (Scenario.body_of None None))))
                  (Scenario.body_of None None) Sample.empty_world
                  ltac:(vm_compute; reflexivity)
                  ltac:(vm_compute; reflexivity)
                  ltac:(vm_compute; reflexivity))
           (or_introl eq_refl)).
Defined.

Lemma post_only_routes_fall_through_witness :
  worker_fetch (rt := Sample.runtime) (sv := Sample.offline)
    (ir := Scenario.idle_insert)
    (Scenario.plain (Scenario.get "/chat")) Sample.empty_world
  = (Returns (Worker_json 200 discovery_document), Sample.empty_world).
Proof.
  exact (@post_only_routes_fall_through
           Sample.runtime Sample.offline Scenario.idle_insert
           (Scenario.plain (Scenario.get "/chat")) Sample.empty_world
           (or_introl eq_refl)
           ltac:(vm_compute; discriminate)
           ltac:(vm_compute; discriminate)).
Defined.

Lemma unknown_path_gets_discovery_witness :
  worker_fetch (rt := Sample.runtime) (sv := Sample.offline)
    (ir := Scenario.idle_insert)
    (Scenario.plain (Scenario.post "/nowhere" Sample.no_body))
    Sample.empty_world
  = (Returns (Worker_json 200 discovery_document), Sample.empty_world).
Proof.
  exact (@unknown_path_gets_discovery
           Sample.runtime Sample.offline Scenario.idle_insert
           (Scenario.plain (Scenario.post "/nowhere" Sample.no_body))
           Sample.empty_world
           ltac:(vm_compute; reflexivity)
           ltac:(vm_compute; discriminate)
           ltac:(vm_compute; intuition discriminate)).
Defined.
